(** * Course feedback front end ([static/app.js])

    A shallow embedding of the page script of the course feedback
    application, and the properties of its specification that concern it.

    The script is a handful of [async] functions and event listeners that
    talk to the REST API with [fetch], read the form controls and write the
    page.  Each of them is embedded as a computation in a small monad with
    the page as state, exceptions that keep the state reached so far (as a
    JavaScript [throw] does) and an environment that answers what the script
    cannot decide itself: the outcome of every [fetch] and the visitor's
    answer to every [confirm] dialog.

    Conventions of the embedding:
    - a JavaScript string is its sequence of UTF-16 code units;
    - a number is given by what the script can see of it, which is how
      JavaScript prints it: [VNum z] is the number printed as the decimal
      numeral of the integer [z] (every integer up to 2^53 in absolute
      value, the lengths of strings and arrays among them, and both zeros),
      [VDouble text] a number printed in another way (4.5, 1e+21);
    - a listener, or the callback of a timer, runs from its beginning to its
      end without another one running in between; which pending timer runs
      next is left open, the delays are only recorded;
    - [index.html] is not among the sources: the page is taken to hold the
      elements the script looks up by id, which the script itself
      dereferences without a test;
    - the server ([app.py]) is not among the sources either: to the script
      it is part of the environment, and its feedback repository is
      modelled from the specification at the end of the definitions. *)

From Stdlib Require Import List String Ascii NArith ZArith Bool Lia DecimalString
  Sorted.
Import ListNotations.
Local Open Scope list_scope.
Set Warnings "-register-all".

(** ** Strings *)

Definition jsstring := list N.

Definition lit (s : string) : jsstring :=
  map N_of_ascii (list_ascii_of_string s).

(** The double quote, which the HTML templates of the script hold. *)
Definition dq : jsstring := [34%N].
Definition quoted (s : string) : jsstring := dq ++ lit s ++ dq.

(** A line break of a template literal followed by its indentation. *)
Definition nl (indent : nat) : jsstring := 10%N :: repeat 32%N indent.

Fixpoint jsstring_eqb (a b : jsstring) : bool :=
  match a, b with
  | [], [] => true
  | x :: a', y :: b' => N.eqb x y && jsstring_eqb a' b'
  | _, _ => false
  end.

Definition is_empty (s : jsstring) : bool :=
  match s with [] => true | _ => false end.

(** [WhiteSpace] and [LineTerminator] of ECMAScript, which [trim] strips. *)
Definition is_white_space (c : N) : bool :=
  ((9 <=? c) && (c <=? 13) || (c =? 32) || (c =? 160) || (c =? 5760)
   || (8192 <=? c) && (c <=? 8202) || (c =? 8232) || (c =? 8233)
   || (c =? 8239) || (c =? 8287) || (c =? 12288) || (c =? 65279))%N.

Fixpoint trimStart (s : jsstring) : jsstring :=
  match s with
  | c :: s' => if is_white_space c then trimStart s' else s
  | [] => []
  end.

Definition trimEnd (s : jsstring) : jsstring := rev (trimStart (rev s)).

(** [String.prototype.trim] *)
Definition trim (s : jsstring) : jsstring := trimEnd (trimStart s).

(** ** Values *)

Inductive error : Type :=
| TypeError
| SyntaxError
| Error (message : jsstring).

Inductive completion (A : Type) : Type :=
| Normal (a : A)
| Throw (e : error).
Arguments Normal {A} a.
Arguments Throw {A} e.

(** The values [JSON.parse] produces, and [undefined], which reading a
    property that is not there gives.  An object is the list of its own
    properties, each name once. *)
Inductive value : Type :=
| VUndefined
| VNull
| VBool (b : bool)
| VNum (z : Z)
| VDouble (text : jsstring)
| VStr (s : jsstring)
| VArr (items : list value)
| VObj (props : list (jsstring * value)).

Fixpoint lookup (key : jsstring) (props : list (jsstring * value)) : value :=
  match props with
  | [] => VUndefined
  | (k, v) :: rest => if jsstring_eqb k key then v else lookup key rest
  end.

Fixpoint has_key (key : jsstring) (props : list (jsstring * value)) : bool :=
  match props with
  | [] => false
  | (k, _) :: rest => jsstring_eqb k key || has_key key rest
  end.

(** [v.key], for the property names the script reads: [authenticated],
    [email], [length], [courseName], [rating], [comments] and [date].  None
    of them is inherited from a prototype, but [length] of a string or an
    array. *)
Definition get (v : value) (key : jsstring) : completion value :=
  match v with
  | VUndefined | VNull => Throw TypeError
  | VBool _ | VNum _ | VDouble _ => Normal VUndefined
  | VStr s =>
      if jsstring_eqb key (lit "length")
      then Normal (VNum (Z.of_nat (List.length s))) else Normal VUndefined
  | VArr items =>
      if jsstring_eqb key (lit "length")
      then Normal (VNum (Z.of_nat (List.length items))) else Normal VUndefined
  | VObj props => Normal (lookup key props)
  end.

(** [ToBoolean] *)
Definition truthy (v : value) : bool :=
  match v with
  | VUndefined | VNull => false
  | VBool b => b
  | VNum z => negb (z =? 0)%Z
  | VDouble _ => true
  | VStr s => negb (is_empty s)
  | VArr _ | VObj _ => true
  end.

(** [v === n] for a number [n] *)
Definition strict_equals_num (v : value) (n : Z) : bool :=
  match v with
  | VNum z => (z =? n)%Z
  | _ => false
  end.

(** [Number::toString] of the number [VNum z] stands for: its numeral. *)
Definition Number_toString (z : Z) : jsstring :=
  lit (NilZero.string_of_int (Z.to_int z)).

Definition comma : jsstring := [44%N].

Fixpoint join (sep : jsstring) (parts : list jsstring) : jsstring :=
  match parts with
  | [] => []
  | [p] => p
  | p :: rest => p ++ sep ++ join sep rest
  end.

Fixpoint sequence {A} (l : list (completion A)) : completion (list A) :=
  match l with
  | [] => Normal []
  | Normal a :: rest =>
      match sequence rest with
      | Normal r => Normal (a :: r)
      | Throw e => Throw e
      end
  | Throw e :: _ => Throw e
  end.

(** [ToString].  An array is joined with commas, [null] and [undefined]
    elements giving the empty string.  A parsed object inherits
    [Object.prototype.toString] unless it has a key [toString] of its own,
    whose value is never callable, and then the conversion throws. *)
Fixpoint ToString (v : value) : completion jsstring :=
  match v with
  | VUndefined => Normal (lit "undefined")
  | VNull => Normal (lit "null")
  | VBool true => Normal (lit "true")
  | VBool false => Normal (lit "false")
  | VNum z => Normal (Number_toString z)
  | VDouble text => Normal text
  | VStr s => Normal s
  | VArr items =>
      match sequence (map (fun item =>
                             match item with
                             | VUndefined | VNull => Normal []
                             | _ => ToString item
                             end) items) with
      | Normal parts => Normal (join comma parts)
      | Throw e => Throw e
      end
  | VObj props =>
      if has_key (lit "toString") props then Throw TypeError
      else Normal (lit "[object Object]")
  end.

Definition cbind {A B} (c : completion A) (k : A -> completion B)
  : completion B :=
  match c with
  | Normal a => k a
  | Throw e => Throw e
  end.

Notation "x <~ c ;; k" := (cbind c (fun x => k))
  (at level 61, c at next level, right associativity).

(** [feedbacks.map(f)]: only an array has a [map] to call *)
Definition Array_map {B} (f : value -> completion B) (v : value)
  : completion (list B) :=
  match v with
  | VArr items => sequence (map f items)
  | _ => Throw TypeError
  end.

(** ** The document *)

Inductive node : Type :=
| Text (data : jsstring).

(** An element the script creates: its text, the text assigned to
    [style.cssText], and what is assigned to [style.animation] after that,
    which then replaces the animation the declarations of [cssText] name. *)
Record element : Type := {
  tagName : jsstring;
  childNodes : list node;
  cssText : jsstring;
  style_animation : option jsstring
}.

Definition createElement (tag : jsstring) : element :=
  {| tagName := tag; childNodes := []; cssText := [];
     style_animation := None |}.

(** The string the [textContent] setter receives: [null] and [undefined]
    stand for the empty string, another value is converted. *)
Definition textContent_arg (v : value) : completion jsstring :=
  match v with
  | VUndefined | VNull => Normal []
  | _ => ToString v
  end.

(** [el.textContent = s] replaces the children by one text node, or by none
    when [s] is empty. *)
Definition set_textContent (el : element) (s : jsstring) : element :=
  {| tagName := tagName el;
     childNodes := if is_empty s then [] else [Text s];
     cssText := cssText el;
     style_animation := style_animation el |}.

Definition set_cssText (el : element) (s : jsstring) : element :=
  {| tagName := tagName el; childNodes := childNodes el; cssText := s;
     style_animation := style_animation el |}.

Definition set_style_animation (el : element) (s : jsstring) : element :=
  {| tagName := tagName el; childNodes := childNodes el; cssText := cssText el;
     style_animation := Some s |}.

(** How the HTML serialisation writes one code unit of a text node. *)
Definition escape_unit (c : N) : jsstring :=
  if (c =? 38)%N then lit "&amp;"
  else if (c =? 160)%N then lit "&nbsp;"
  else if (c =? 60)%N then lit "&lt;"
  else if (c =? 62)%N then lit "&gt;"
  else [c].

Definition serialize (n : node) : jsstring :=
  match n with
  | Text data => flat_map escape_unit data
  end.

(** [el.innerHTML], read *)
Definition innerHTML (el : element) : jsstring :=
  flat_map serialize (childNodes el).

Definition escapeHtml (text : value) : completion jsstring :=
  let div := createElement (lit "div") in
  s <~ textContent_arg text;;
  let div := set_textContent div s in
  Normal (innerHTML div).

(** ** Requests and responses *)

Inductive credentials_mode : Type := omit | same_origin | include.

(** A call of [fetch]: the address and the options, those the call leaves out
    at the defaults of [fetch].  [body] is the value the script hands to
    [JSON.stringify]. *)
Record request : Type := {
  url : jsstring;
  method : jsstring;
  headers : list (jsstring * jsstring);
  credentials : credentials_mode;
  body : option value
}.

(** What the script reads of a [Response]: [ok], and what [json()] settles
    to. *)
Record response : Type := {
  ok : bool;
  json : completion value
}.

(** ** The page and what happens on it *)

Inductive event : Type :=
| PreventDefault
| Fetch (rq : request)
| Navigate (href : jsstring)
| ConsoleError (label : jsstring) (e : error)
| Confirm (message : jsstring).

Record controls : Type := {
  courseName : jsstring;
  rating : jsstring;
  comments : jsstring
}.

(** The two arrow functions [showNotification] hands to [setTimeout], each
    with the notification it closes over, named by its place among the
    elements appended to the body. *)
Inductive callback : Type :=
| SlideOutThenRemove (child : nat)
| Remove (child : nat).

Record page : Type := {
  log : list event;             (* what the script did, oldest first *)
  userEmail : jsstring;         (* textContent of #userEmail *)
  feedbackList : jsstring;      (* innerHTML of #feedbackList *)
  feedbackForm : controls;      (* value of #courseName, #rating, #comments *)
  defaults : controls;          (* what reset() puts back *)
  body_children : list element; (* appended to document.body, in order *)
  timers : list (callback * N); (* pending: setTimeout(callback, delay) *)
  detached : list nat           (* the appended elements remove() took out *)
}.

(** What the script does not decide: how a [fetch] settles and what the
    visitor answers to a [confirm], each given what happened before. *)
Record environment : Type := {
  network : list event -> request -> completion response;
  dialog : list event -> jsstring -> bool
}.

Definition M (A : Type) : Type :=
  environment -> page -> completion A * page.

Definition ret {A} (a : A) : M A := fun _ st => (Normal a, st).

Definition throw {A} (e : error) : M A := fun _ st => (Throw e, st).

Definition bind {A B} (m : M A) (k : A -> M B) : M B :=
  fun env st =>
    match m env st with
    | (Normal a, st') => k a env st'
    | (Throw e, st') => (Throw e, st')
    end.

Definition try_catch {A} (m : M A) (handler : error -> M A) : M A :=
  fun env st =>
    match m env st with
    | (Normal a, st') => (Normal a, st')
    | (Throw e, st') => handler e env st'
    end.

Definition lift {A} (c : completion A) : M A := fun _ st => (c, st).

Notation "x <- m ;; k" := (bind m (fun x => k))
  (at level 61, m at next level, right associativity).
Notation "m ;; k" := (bind m (fun _ => k))
  (at level 61, right associativity).

Definition emit (ev : event) (st : page) : page :=
  {| log := log st ++ [ev];
     userEmail := userEmail st;
     feedbackList := feedbackList st;
     feedbackForm := feedbackForm st;
     defaults := defaults st;
     body_children := body_children st;
     timers := timers st;
     detached := detached st |}.

Definition fetch (rq : request) : M response :=
  fun env st => (network env (log st) rq, emit (Fetch rq) st).

Definition confirm (message : jsstring) : M bool :=
  fun env st => (Normal (dialog env (log st) message), emit (Confirm message) st).

Definition set_location_href (href : jsstring) : M unit :=
  fun _ st => (Normal tt, emit (Navigate href) st).

Definition console_error (label : jsstring) (e : error) : M unit :=
  fun _ st => (Normal tt, emit (ConsoleError label e) st).

Definition preventDefault : M unit :=
  fun _ st => (Normal tt, emit PreventDefault st).

Definition set_userEmail_textContent (v : value) : M unit :=
  fun _ st =>
    match textContent_arg v with
    | Normal s =>
        (Normal tt,
         {| log := log st;
            userEmail := s;
            feedbackList := feedbackList st;
            feedbackForm := feedbackForm st;
            defaults := defaults st;
            body_children := body_children st;
            timers := timers st;
     detached := detached st |})
    | Throw e => (Throw e, st)
    end.

Definition set_feedbackList_innerHTML (html : jsstring) : M unit :=
  fun _ st =>
    (Normal tt,
     {| log := log st;
        userEmail := userEmail st;
        feedbackList := html;
        feedbackForm := feedbackForm st;
        defaults := defaults st;
        body_children := body_children st;
        timers := timers st;
     detached := detached st |}).

Definition control_value (field : controls -> jsstring) : M jsstring :=
  fun _ st => (Normal (field (feedbackForm st)), st).

Definition feedbackForm_reset : M unit :=
  fun _ st =>
    (Normal tt,
     {| log := log st;
        userEmail := userEmail st;
        feedbackList := feedbackList st;
        feedbackForm := defaults st;
        defaults := defaults st;
        body_children := body_children st;
        timers := timers st;
     detached := detached st |}).

Definition body_appendChild (el : element) : M nat :=
  fun _ st =>
    (Normal (List.length (body_children st)),
     {| log := log st;
        userEmail := userEmail st;
        feedbackList := feedbackList st;
        feedbackForm := feedbackForm st;
        defaults := defaults st;
        body_children := body_children st ++ [el];
        timers := timers st;
     detached := detached st |}).

Definition setTimeout (cb : callback) (delay : N) : M unit :=
  fun _ st =>
    (Normal tt,
     {| log := log st;
        userEmail := userEmail st;
        feedbackList := feedbackList st;
        feedbackForm := feedbackForm st;
        defaults := defaults st;
        body_children := body_children st;
        timers := timers st ++ [(cb, delay)];
        detached := detached st |}).

(** ** The script *)

Definition login_page : jsstring := lit "/login.html".

Definition check_auth_request : request :=
  {| url := lit "/api/check-auth";
     method := lit "GET";
     headers := [];
     credentials := include;
     body := None |}.

Definition logout_request : request :=
  {| url := lit "/api/logout";
     method := lit "POST";
     headers := [];
     credentials := include;
     body := None |}.

Definition get_feedback_request : request :=
  {| url := lit "/api/feedback";
     method := lit "GET";
     headers := [];
     credentials := include;
     body := None |}.

Definition submit_feedback_request (courseName rating comments : jsstring)
  : request :=
  {| url := lit "/api/feedback";
     method := lit "POST";
     headers := [(lit "Content-Type", lit "application/json")];
     credentials := include;
     body := Some (VObj [(lit "courseName", VStr courseName);
                         (lit "rating", VStr rating);
                         (lit "comments", VStr comments)]) |}.

Definition clear_feedback_request : request :=
  {| url := lit "/api/feedback/clear";
     method := lit "DELETE";
     headers := [];
     credentials := include;
     body := None |}.

Definition checkAuth : M value :=
  try_catch
    (response <- fetch check_auth_request;;
     data <- lift (json response);;
     authenticated <- lift (get data (lit "authenticated"));;
     if negb (truthy authenticated) then
       set_location_href login_page;;
       ret VNull
     else
       lift (get data (lit "email")))
    (fun error =>
       console_error (lit "Auth check failed:") error;;
       set_location_href login_page;;
       ret VNull).

Definition empty_state_html : jsstring :=
  lit "<div class=" ++ quoted "empty-state"
  ++ lit ">No feedback submitted yet. Be the first to share your thoughts!</div>".

Definition load_failed_html : jsstring :=
  lit "<div class=" ++ quoted "empty-state"
  ++ lit ">Failed to load feedback. Please try again.</div>".

(** The template literal of the arrow function [loadFeedback] maps over the
    array, with what its four placeholders evaluate to. *)
Definition item_template (course rating comments date : jsstring) : jsstring :=
  nl 12 ++ lit "<div class=" ++ quoted "feedback-item" ++ lit ">"
  ++ nl 16 ++ lit "<div class=" ++ quoted "feedback-course" ++ lit ">"
  ++ course ++ lit "</div>"
  ++ nl 16 ++ lit "<span class=" ++ quoted "feedback-rating"
  ++ lit ">Rating: " ++ rating ++ lit "/5</span>"
  ++ nl 16 ++ lit "<div class=" ++ quoted "feedback-comments" ++ lit ">"
  ++ comments ++ lit "</div>"
  ++ nl 16 ++ lit "<div class=" ++ quoted "feedback-date"
  ++ lit ">Submitted on " ++ date ++ lit "</div>"
  ++ nl 12 ++ lit "</div>"
  ++ nl 8.

(** The arrow function itself. *)
Definition feedback_item (feedback : value) : completion jsstring :=
  courseName <~ get feedback (lit "courseName");;
  course <~ escapeHtml courseName;;
  rating <~ get feedback (lit "rating");;
  rating <~ ToString rating;;
  comments <~ get feedback (lit "comments");;
  comments <~ escapeHtml comments;;
  date <~ get feedback (lit "date");;
  date <~ ToString date;;
  Normal (item_template course rating comments date).

Definition loadFeedback : M unit :=
  try_catch
    (response <- fetch get_feedback_request;;
     if negb (ok response) then
       throw (Error (lit "Failed to load feedback"))
     else
       feedbacks <- lift (json response);;
       length <- lift (get feedbacks (lit "length"));;
       if strict_equals_num length 0 then
         set_feedbackList_innerHTML empty_state_html
       else
         items <- lift (Array_map feedback_item feedbacks);;
         set_feedbackList_innerHTML (join [] items))
    (fun error =>
       console_error (lit "Failed to load feedback:") error;;
       set_feedbackList_innerHTML load_failed_html).

Definition init : M unit :=
  email <- checkAuth;;
  if negb (truthy email) then ret tt
  else
    set_userEmail_textContent email;;
    loadFeedback.

Definition logoutBtn_click : M unit :=
  try_catch
    (fetch logout_request;;
     set_location_href login_page)
    (fun error =>
       console_error (lit "Logout failed:") error;;
       set_location_href login_page).

Definition notification_cssText (bgColor : jsstring) : jsstring :=
  nl 8 ++ lit "position: fixed;"
  ++ nl 8 ++ lit "top: 20px;"
  ++ nl 8 ++ lit "right: 20px;"
  ++ nl 8 ++ lit "background: " ++ bgColor ++ lit ";"
  ++ nl 8 ++ lit "color: white;"
  ++ nl 8 ++ lit "padding: 15px 25px;"
  ++ nl 8 ++ lit "border-radius: 8px;"
  ++ nl 8 ++ lit "box-shadow: 0 5px 15px rgba(0,0,0,0.3);"
  ++ nl 8 ++ lit "z-index: 1000;"
  ++ nl 8 ++ lit "animation: slideIn 0.3s ease;"
  ++ nl 4.

(** The element [showNotification(message, type = 'success')] builds. *)
Definition notification (message type : jsstring) : element :=
  let notification := createElement (lit "div") in
  let notification := set_textContent notification message in
  let bgColor :=
    if jsstring_eqb type (lit "error") then lit "#f44336" else lit "#4caf50" in
  set_cssText notification (notification_cssText bgColor).

(** [showNotification]; what the callback of its timer does is
    [run_callback] below. *)
Definition showNotification (message type : jsstring) : M unit :=
  child <- body_appendChild (notification message type);;
  setTimeout (SlideOutThenRemove child) 3000.

(** [notification.style.animation = value], for the notification appended
    as number [child]. *)
Definition set_notification_animation (child : nat) (value : jsstring) : M unit :=
  fun _ st =>
    (Normal tt,
     {| log := log st;
        userEmail := userEmail st;
        feedbackList := feedbackList st;
        feedbackForm := feedbackForm st;
        defaults := defaults st;
        body_children :=
          match nth_error (body_children st) child with
          | Some el =>
              firstn child (body_children st)
              ++ set_style_animation el value
                 :: skipn (S child) (body_children st)
          | None => body_children st
          end;
        timers := timers st;
        detached := detached st |}).

(** [notification.remove()]: the notification leaves the body, if it is
    still there. *)
Definition notification_remove (child : nat) : M unit :=
  fun _ st =>
    (Normal tt,
     {| log := log st;
        userEmail := userEmail st;
        feedbackList := feedbackList st;
        feedbackForm := feedbackForm st;
        defaults := defaults st;
        body_children := body_children st;
        timers := timers st;
        detached := if existsb (Nat.eqb child) (detached st)
                    then detached st else child :: detached st |}).

(** What the callbacks of [showNotification] do when their time has come:
    the first starts the slide-out and sets the timer of the second, which
    removes the notification. *)
Definition run_callback (cb : callback) : M unit :=
  match cb with
  | SlideOutThenRemove child =>
      set_notification_animation child (lit "slideOut 0.3s ease");;
      setTimeout (Remove child) 300
  | Remove child =>
      notification_remove child
  end.

(** The pending timer number [i] goes off: it is no longer pending, and its
    callback runs. *)
Definition fire (i : nat) : M unit :=
  fun env st =>
    match nth_error (timers st) i with
    | Some (cb, _) =>
        run_callback cb env
          {| log := log st;
             userEmail := userEmail st;
             feedbackList := feedbackList st;
             feedbackForm := feedbackForm st;
             defaults := defaults st;
             body_children := body_children st;
             timers := firstn i (timers st) ++ skipn (S i) (timers st);
             detached := detached st |}
    | None => (Normal tt, st)
    end.

Definition feedbackForm_submit : M unit :=
  preventDefault;;
  courseName <- control_value courseName;;
  let courseName := trim courseName in
  rating <- control_value rating;;
  comments <- control_value comments;;
  let comments := trim comments in
  if is_empty courseName || is_empty rating || is_empty comments then
    showNotification (lit "Please fill in all fields") (lit "error")
  else
    try_catch
      (response <- fetch (submit_feedback_request courseName rating comments);;
       if negb (ok response) then
         throw (Error (lit "Failed to submit feedback"))
       else
         feedbackForm_reset;;
         loadFeedback;;
         showNotification (lit "Feedback submitted successfully!") (lit "success"))
      (fun error =>
         console_error (lit "Failed to submit feedback:") error;;
         showNotification (lit "Failed to submit feedback. Please try again.")
                          (lit "error")).

Definition clear_question : jsstring :=
  lit "Are you sure you want to clear all feedback? This action cannot be undone.".

Definition clearBtn_click : M unit :=
  confirmed <- confirm clear_question;;
  if negb confirmed then ret tt
  else
    try_catch
      (response <- fetch clear_feedback_request;;
       if negb (ok response) then
         throw (Error (lit "Failed to clear feedback"))
       else
         loadFeedback;;
         showNotification (lit "All feedback cleared!") (lit "success"))
      (fun error =>
         console_error (lit "Failed to clear feedback:") error;;
         showNotification (lit "Failed to clear feedback. Please try again.")
                          (lit "error")).

(** The state a computation leaves and the events it adds to the log. *)
Definition run {A} (m : M A) (env : environment) (st : page) : page :=
  snd (m env st).

Definition new_events {A} (m : M A) (env : environment) (st : page)
  : list event :=
  skipn (List.length (log st)) (log (run m env st)).

(** ** Vocabulary of the properties *)

(** [extends P st st']: [st'] has the log of [st] and, after it, events that
    all satisfy [P]. *)
Definition extends (P : event -> Prop) (st st' : page) : Prop :=
  exists new, log st' = log st ++ new /\ Forall P new.

(** [emits P m]: whatever the environment and the page, every event [m] adds
    to the log satisfies [P]. *)
Definition emits {A} (P : event -> Prop) (m : M A) : Prop :=
  forall env st, extends P st (snd (m env st)).

(** The document fragment [loadFeedback] computes from the reply to its
    request, or the exception that sends it to its [catch]. *)
Definition rendering (reply : completion response) : completion jsstring :=
  response <~ reply;;
  if negb (ok response) then Throw (Error (lit "Failed to load feedback"))
  else
    feedbacks <~ json response;;
    length <~ get feedbacks (lit "length");;
    if strict_equals_num length 0 then Normal empty_state_html
    else
      items <~ Array_map feedback_item feedbacks;;
      Normal (join [] items).

Definition loaded (reply : completion response) (st : page) : page :=
  {| log := log st ++ Fetch get_feedback_request ::
            match rendering reply with
            | Normal _ => []
            | Throw e => [ConsoleError (lit "Failed to load feedback:") e]
            end;
     userEmail := userEmail st;
     feedbackList := match rendering reply with
                     | Normal html => html
                     | Throw _ => load_failed_html
                     end;
     feedbackForm := feedbackForm st;
     defaults := defaults st;
     body_children := body_children st;
     timers := timers st;
     detached := detached st |}.

(** What [GET /api/check-auth] reports: the parsed body, or the failure of
    the request or of reading its body. *)
Definition check_auth_reply (env : environment) (st : page) : completion value :=
  response <~ network env (log st) check_auth_request;;
  json response.

Definition requests_feedback (ev : event) : bool :=
  match ev with
  | Fetch rq => jsstring_eqb (url rq) (lit "/api/feedback")
  | _ => false
  end.

(** The check failed, or reported a visitor who is not authenticated: the
    page is sent to the login view, with the failure [e] written to the
    console when there is one, and nothing else happens. *)
Definition sent_to_login (env : environment) (st : page) (e : option error)
  : Prop :=
  new_events init env st =
    Fetch check_auth_request ::
    match e with
    | Some e => [ConsoleError (lit "Auth check failed:") e]
    | None => []
    end ++ [Navigate login_page]
  /\ existsb requests_feedback (new_events init env st) = false
  /\ userEmail (run init env st) = userEmail st
  /\ feedbackList (run init env st) = feedbackList st.

(** The page after [showNotification]. *)
Definition notified (message type : jsstring) (st : page) : page :=
  {| log := log st;
     userEmail := userEmail st;
     feedbackList := feedbackList st;
     feedbackForm := feedbackForm st;
     defaults := defaults st;
     body_children := body_children st ++ [notification message type];
     timers := timers st
               ++ [(SlideOutThenRemove (List.length (body_children st)), 3000%N)];
     detached := detached st |}.

(** The page after [feedbackForm.reset()]. *)
Definition reset (st : page) : page :=
  {| log := log st;
     userEmail := userEmail st;
     feedbackList := feedbackList st;
     feedbackForm := defaults st;
     defaults := defaults st;
     body_children := body_children st;
     timers := timers st;
     detached := detached st |}.

(** A request failed: [fetch] rejected, or the response is not [ok]. *)
Definition failed (reply : completion response) : bool :=
  match reply with
  | Normal response => negb (ok response)
  | Throw _ => true
  end.

Definition is_navigation (ev : event) : bool :=
  match ev with
  | Navigate _ => true
  | _ => false
  end.

Definition is_fetch (ev : event) : bool :=
  match ev with
  | Fetch _ => true
  | _ => false
  end.

Definition sends_credentials (ev : event) : Prop :=
  match ev with
  | Fetch rq => credentials rq = include
  | _ => True
  end.

(** What the script runs: [init()] when the page loads, and its three
    listeners. *)
Inductive entry : Type :=
| PageLoad
| LogoutClick
| FormSubmit
| ClearClick.

Definition script (e : entry) : M unit :=
  match e with
  | PageLoad => init
  | LogoutClick => logoutBtn_click
  | FormSubmit => feedbackForm_submit
  | ClearClick => clearBtn_click
  end.

(** A visit: the script run at one entry after the other.  An exception a
    run ends with is lost, as that of an [async] function nobody awaits. *)
Definition visit (env : environment) (entries : list entry) (st : page) : page :=
  fold_left (fun st e => run (script e) env st) entries st.

(** Values that are neither arrays nor objects. *)
Definition primitive (v : value) : bool :=
  match v with
  | VArr _ | VObj _ => false
  | _ => true
  end.

(** An element of the array [GET /api/feedback] answers with: an object
    whose [courseName], [rating], [comments] and [date] are primitive. *)
Definition feedback_record (v : value) : bool :=
  match v with
  | VObj props =>
      primitive (lookup (lit "courseName") props)
      && primitive (lookup (lit "rating") props)
      && primitive (lookup (lit "comments") props)
      && primitive (lookup (lit "date") props)
  | _ => false
  end.

(** The page after the [try] of the submit listener, entered with the
    trimmed fields on page [st0]. *)
Definition submitted (env : environment) (cn r cm : jsstring) (st0 : page)
  : page :=
  let rq := submit_feedback_request cn r cm in
  let sent := emit (Fetch rq) st0 in
  let reported e :=
    notified (lit "Failed to submit feedback. Please try again.") (lit "error")
      (emit (ConsoleError (lit "Failed to submit feedback:") e) sent) in
  match network env (log st0) rq with
  | Throw e => reported e
  | Normal response =>
      if ok response then
        notified (lit "Feedback submitted successfully!") (lit "success")
          (loaded (network env (log sent) get_feedback_request) (reset sent))
      else reported (Error (lit "Failed to submit feedback"))
  end.

(** The page after the [try] of the clear listener, entered on page [st0]. *)
Definition cleared (env : environment) (st0 : page) : page :=
  let sent := emit (Fetch clear_feedback_request) st0 in
  let reported e :=
    notified (lit "Failed to clear feedback. Please try again.") (lit "error")
      (emit (ConsoleError (lit "Failed to clear feedback:") e) sent) in
  match network env (log st0) clear_feedback_request with
  | Throw e => reported e
  | Normal response =>
      if ok response then
        notified (lit "All feedback cleared!") (lit "success")
          (loaded (network env (log sent) get_feedback_request) sent)
      else reported (Error (lit "Failed to clear feedback"))
  end.

(** [t] is [raw] without the white space at its two ends. *)
Definition trimmed_of (raw t : jsstring) : Prop :=
  exists pre post,
    raw = pre ++ t ++ post
    /\ forallb is_white_space pre = true
    /\ forallb is_white_space post = true
    /\ (forall c t', t = c :: t' -> is_white_space c = false)
    /\ (forall c t', t = t' ++ [c] -> is_white_space c = false).

(** ** Pages and environments to run the script on *)

Definition two_records : list value :=
  [VObj [(lit "courseName", VStr (lit "CS101"));
         (lit "rating", VNum 5);
         (lit "comments", VStr (lit "Great course"));
         (lit "date", VStr (lit "2025-11-15 10:30"))];
   VObj [(lit "courseName", VStr (lit "Algebra <2>"));
         (lit "rating", VNum 3);
         (lit "comments", VStr (lit "Sets & maps"));
         (lit "date", VStr (lit "2025-11-14 09:00"))]].

Definition marked_up_record : value :=
  VObj [(lit "courseName", VStr (lit "<b>CS101</b>"));
        (lit "rating", VStr (lit "<i>5</i>"));
        (lit "comments", VStr (lit "Sets & maps"));
        (lit "date", VStr (lit "<u>today</u>"))].

Definition no_input : controls :=
  {| courseName := []; rating := []; comments := [] |}.

(** The page as it is served, with the given text typed into the form. *)
Definition page_with (form : controls) : page :=
  {| log := [];
     userEmail := [];
     feedbackList := [];
     feedbackForm := form;
     defaults := no_input;
     body_children := [];
     timers := [];
     detached := [] |}.

(** No network: every [fetch] is rejected.  Dialogs are declined. *)
Definition offline : environment :=
  {| network := fun _ _ => Throw TypeError;
     dialog := fun _ _ => false |}.

(** A server that gives every request the same reply, and a visitor who
    gives every dialog the same answer. *)
Definition replying (reply : response) (answer : bool) : environment :=
  {| network := fun _ _ => Normal reply;
     dialog := fun _ _ => answer |}.

(** A server with a session for [a@x.com] and two feedback records, and a
    visitor who accepts every dialog. *)
Definition signed_in : environment :=
  {| network := fun _ rq =>
       if jsstring_eqb (url rq) (lit "/api/check-auth") then
         Normal {| ok := true;
                   json := Normal (VObj [(lit "authenticated", VBool true);
                                         (lit "email", VStr (lit "a@x.com"))]) |}
       else if jsstring_eqb (url rq) (lit "/api/feedback")
               && jsstring_eqb (method rq) (lit "GET") then
         Normal {| ok := true; json := Normal (VArr two_records) |}
       else
         Normal {| ok := true; json := Normal (VObj []) |};
     dialog := fun _ _ => true |}.

(** A server without a session: check-auth says so, the rest is refused. *)
Definition signed_out : environment :=
  {| network := fun _ rq =>
       if jsstring_eqb (url rq) (lit "/api/check-auth") then
         Normal {| ok := true;
                   json := Normal (VObj [(lit "authenticated", VBool false)]) |}
       else
         Normal {| ok := false;
                   json := Normal (VObj [(lit "error", VStr (lit "Unauthorized"))]) |};
     dialog := fun _ _ => true |}.

Definition cs101 : controls :=
  {| courseName := lit "  CS101 ";
     rating := lit "5";
     comments := lit "Great course" |}.


(** The requests the script knows. *)
Definition api_request (rq : request) : Prop :=
  rq = check_auth_request
  \/ rq = logout_request
  \/ rq = get_feedback_request
  \/ rq = clear_feedback_request
  \/ exists courseName rating comments,
       rq = submit_feedback_request courseName rating comments.

Definition credentialed_api_call (ev : event) : Prop :=
  match ev with
  | Fetch rq => api_request rq /\ credentials rq = include
  | _ => True
  end.


(** [html] is the template filled from [feedback]: the course name and the
    comments through [escapeHtml], the rating and the date converted to
    strings and nothing more. *)
Definition shows (feedback : value) (html : jsstring) : Prop :=
  exists cn r cm d course rating comments date,
    get feedback (lit "courseName") = Normal cn
    /\ get feedback (lit "rating") = Normal r
    /\ get feedback (lit "comments") = Normal cm
    /\ get feedback (lit "date") = Normal d
    /\ escapeHtml cn = Normal course
    /\ ToString r = Normal rating
    /\ escapeHtml cm = Normal comments
    /\ ToString d = Normal date
    /\ html = item_template course rating comments date.

(** No [<] and no [>]. *)
Definition markup_free (s : jsstring) : Prop :=
  Forall (fun c => c <> 60%N /\ c <> 62%N) s.


(** [out] is what the HTML serialisation makes of the text [v] stands for,
    as [escapeHtml] obtains it: the text assigned to [textContent] of a new
    [div] and [innerHTML] read back. *)
Definition escaped_text (v : value) (out : jsstring) : Prop :=
  exists text,
    textContent_arg v = Normal text
    /\ out = innerHTML (set_textContent (createElement (lit "div")) text)
    /\ out = flat_map escape_unit text
    /\ markup_free out.

Definition marked_up_html : jsstring :=
  item_template (lit "&lt;b&gt;CS101&lt;/b&gt;") (lit "<i>5</i>")
                (lit "Sets &amp; maps") (lit "<u>today</u>").

(** ** The feedback repository

    The Flask application ([app.py]) that serves the API is not among the
    sources.  What the specification says of its feedback repository is
    modelled here, to state the isolation of one owner's feedback from
    another's. *)

Module FeedbackRepository.

(** Modelled from the spec: the [Feedback] row of the data model of
    [app.py], which is missing ([id], [ownerId], [courseName], [rating],
    [comments], [createdAt]). *)
Record Feedback : Type := {
  id : nat;
  ownerId : nat;
  courseName : jsstring;
  rating : Z;
  comments : jsstring;
  createdAt : nat
}.

(** Modelled from the spec: the persistent store of [app.py], which is
    missing: the feedback table and the identifier the next insertion
    gets. *)
Record store : Type := {
  rows : list Feedback;
  next_id : nat
}.

(** Modelled from the spec: the [ValidationError] with which [create] of
    [app.py], which is missing, rejects its input. *)
Inductive ValidationError : Type := Invalid.

(** Modelled from the spec: the store of [app.py], which is missing, before
    the first insertion. *)
Definition empty : store := {| rows := []; next_id := 1 |}.

(** Modelled from the spec: the filter by owning user every read and write
    of the repository of [app.py], which is missing, goes through. *)
Definition owned_by (owner : nat) (f : Feedback) : bool :=
  Nat.eqb (ownerId f) owner.

(** Modelled from the spec: the order of [list] of [app.py], which is
    missing: newest first by [createdAt], here by insertion into a list
    already in that order. *)
Fixpoint insert (f : Feedback) (sorted : list Feedback) : list Feedback :=
  match sorted with
  | [] => [f]
  | g :: rest =>
      if Nat.leb (createdAt g) (createdAt f) then f :: sorted
      else g :: insert f rest
  end.

Definition newest_first (l : list Feedback) : list Feedback :=
  fold_right insert [] l.

(** Modelled from the spec: [create(ownerId, courseName, rating,
    comments)] of the repository of [app.py], which is missing: an empty
    course name or comments, or a rating outside [1,5], is rejected before
    anything is stored; the row is stamped with the time of insertion. *)
Definition create (owner : nat) (courseName : jsstring) (rating : Z)
    (comments : jsstring) (now : nat) (st : store)
  : (Feedback * store) + ValidationError :=
  if is_empty courseName || is_empty comments
     || negb ((1 <=? rating)%Z && (rating <=? 5)%Z)
  then inr Invalid
  else
    let f := {| id := next_id st;
                ownerId := owner;
                courseName := courseName;
                rating := rating;
                comments := comments;
                createdAt := now |} in
    inl (f, {| rows := f :: rows st; next_id := S (next_id st) |}).

(** Modelled from the spec: [clearAll(ownerId)] of the repository of
    [app.py], which is missing: every row of the owner is deleted, and
    their number returned. *)
Definition clearAll (owner : nat) (st : store) : nat * store :=
  (List.length (filter (owned_by owner) (rows st)),
   {| rows := filter (fun f => negb (owned_by owner f)) (rows st);
      next_id := next_id st |}).

(** Modelled from the spec: [list(ownerId)] of the repository of
    [app.py], which is missing: the rows of the owner, the newest first. *)
Definition list (owner : nat) (st : store) : Datatypes.list Feedback :=
  newest_first (filter (owned_by owner) (rows st)).

(** Modelled from the spec: what "newest first by [createdAt]" asks of two
    neighbours of a listing. *)
Definition not_older (f g : Feedback) : Prop := createdAt g <= createdAt f.

End FeedbackRepository.

(** ** Vocabulary of the further properties *)

(** The trimmed fields of the form pass the test of the submit listener. *)
Definition fields_filled (st : page) : bool :=
  negb (is_empty (trim (courseName (feedbackForm st)))
        || is_empty (rating (feedbackForm st))
        || is_empty (trim (comments (feedbackForm st)))).

(** The request a submission of the form of [st] sends. *)
Definition submission (st : page) : request :=
  submit_feedback_request (trim (courseName (feedbackForm st)))
    (rating (feedbackForm st)) (trim (comments (feedbackForm st))).

(** The form was filled, and the server answered its submission with a
    response that is [ok]. *)
Definition submission_accepted (env : environment) (st : page) : bool :=
  fields_filled st
  && negb (failed (network env (log (emit PreventDefault st)) (submission st))).

(** The visitor accepted the dialog, and the server answered the clearing
    with a response that is [ok]. *)
Definition clearing_accepted (env : environment) (st : page) : bool :=
  dialog env (log st) clear_question
  && negb (failed (network env (log (emit (Confirm clear_question) st))
                     clear_feedback_request)).

(** The requests among events. *)
Definition requests (events : list event) : list request :=
  flat_map (fun ev => match ev with Fetch rq => [rq] | _ => [] end) events.

(** A check-auth body that says authenticated and names nobody. *)
Definition anonymous_session : response :=
  {| ok := true; json := Normal (VObj [(lit "authenticated", VBool true)]) |}.

(** The body of a session for [a@x.com], under a given status. *)
Definition session_body (status_ok : bool) : response :=
  {| ok := status_ok;
     json := Normal (VObj [(lit "authenticated", VBool true);
                           (lit "email", VStr (lit "a@x.com"))]) |}.

(** What the list shows after a reload the server answered with [reply]. *)
Definition reloaded_list (reply : completion response) : jsstring :=
  match rendering reply with
  | Normal html => html
  | Throw _ => load_failed_html
  end.

(** None of the code units the HTML serialisation rewrites. *)
Definition plain (s : jsstring) : bool :=
  forallb (fun c => negb ((c =? 38) || (c =? 160) || (c =? 60) || (c =? 62))%N) s.

(** What an entry of the script may change on the page, beside the log, the
    notifications and their timers. *)
Definition untouched (e : entry) (st st' : page) : Prop :=
  defaults st' = defaults st
  /\ (e <> PageLoad -> userEmail st' = userEmail st)
  /\ (e <> FormSubmit -> feedbackForm st' = feedbackForm st)
  /\ (e = LogoutClick -> feedbackList st' = feedbackList st)
  /\ (e = PageLoad \/ e = LogoutClick ->
      body_children st' = body_children st /\ timers st' = timers st).

(** A request either has no body and no header, or is a [POST] to
    [/api/feedback] that announces its JSON body. *)
Definition body_announced (rq : request) : Prop :=
  (body rq = None /\ headers rq = []
   /\ (method rq = lit "GET" \/ method rq = lit "POST"
       \/ method rq = lit "DELETE"))
  \/ (method rq = lit "POST"
      /\ url rq = lit "/api/feedback"
      /\ headers rq = [(lit "Content-Type", lit "application/json")]
      /\ exists v, body rq = Some v).

(** ** What the page shows *)

(** The children of the body: of the elements appended to it, numbered from
    [from], those that have not been removed. *)
Fixpoint attached (from : nat) (gone : list nat) (els : list element)
  : list element :=
  match els with
  | [] => []
  | el :: rest =>
      if existsb (Nat.eqb from) gone then attached (S from) gone rest
      else el :: attached (S from) gone rest
  end.

Definition document_body (st : page) : list element :=
  attached 0 (detached st) (body_children st).

(** A piece of a document: a text node, which shows its text whatever that
    holds; an element with its class and its children; and markup that was
    written into the HTML as it is, which is only a text when it holds
    nothing the parser takes for markup. *)
Inductive fragment : Type :=
| Txt (data : jsstring)
| Raw (html : jsstring)
| Elem (tag className : string) (children : list fragment).

(** The HTML of a piece: the serialisation of its nodes. *)
Fixpoint markup (f : fragment) : jsstring :=
  match f with
  | Txt data => flat_map escape_unit data
  | Raw html => html
  | Elem tag className children =>
      lit "<" ++ lit tag ++ lit " class=" ++ quoted className ++ lit ">"
      ++ flat_map markup children
      ++ lit "</" ++ lit tag ++ lit ">"
  end.

(** A text as the children of an element: one text node, or none for the
    empty text. *)
Definition text (s : jsstring) : list fragment :=
  if is_empty s then [] else [Txt s].

(** An item of the feedback list with its white space: a [div] of class
    [feedback-item] that holds the course name, the rating out of 5, the
    comments and the date of submission, each in an element of its own.  The
    course name and the comments are text nodes; [inserted] says what the
    rating and the date are. *)
Definition item (inserted : jsstring -> fragment)
    (course rating comments date : jsstring) : list fragment :=
  [Txt (nl 12);
   Elem "div" "feedback-item"
     [Txt (nl 16);
      Elem "div" "feedback-course" (text course);
      Txt (nl 16);
      Elem "span" "feedback-rating"
        [Txt (lit "Rating: "); inserted rating; Txt (lit "/5")];
      Txt (nl 16);
      Elem "div" "feedback-comments" (text comments);
      Txt (nl 16);
      Elem "div" "feedback-date" [Txt (lit "Submitted on "); inserted date];
      Txt (nl 12)];
   Txt (nl 8)].

(** [pieces] is the item of [feedback]: its course name and its comments as
    texts ([null] and [undefined] as the empty text), its rating and its
    date converted to strings and [inserted]. *)
Definition displays (inserted : jsstring -> fragment) (feedback : value)
    (pieces : list fragment) : Prop :=
  exists cn r cm d course rating comments date,
    get feedback (lit "courseName") = Normal cn
    /\ get feedback (lit "rating") = Normal r
    /\ get feedback (lit "comments") = Normal cm
    /\ get feedback (lit "date") = Normal d
    /\ textContent_arg cn = Normal course
    /\ ToString r = Normal rating
    /\ textContent_arg cm = Normal comments
    /\ ToString d = Normal date
    /\ pieces = item inserted course rating comments date.

(** The field [key] of [feedback] converts to a string without [&], [<],
    [>] and no-break space. *)
Definition plain_field (key : jsstring) (feedback : value) : bool :=
  match get feedback key with
  | Normal v =>
      match ToString v with
      | Normal s => plain s
      | Throw _ => false
      end
  | Throw _ => false
  end.

(** The rating and the date of [feedback] are plain, as a number and a time
    stamp are. *)
Definition plainly_stamped (feedback : value) : bool :=
  plain_field (lit "rating") feedback && plain_field (lit "date") feedback.

(** ** Reasoning about the log *)

Lemma skipn_length_app {A} (l new : list A) :
  skipn (List.length l) (l ++ new) = new.
Proof. induction l as [|x l IH]; simpl; auto. Qed.


Lemma log_emit ev st : log (emit ev st) = log st ++ [ev].
Proof. reflexivity. Qed.

Lemma extends_refl P st st' : log st' = log st -> extends P st st'.
Proof. intros E; exists []; rewrite E, app_nil_r; auto. Qed.

Lemma extends_trans P st1 st2 st3 :
  extends P st1 st2 -> extends P st2 st3 -> extends P st1 st3.
Proof.
  intros (n1 & E1 & F1) (n2 & E2 & F2).
  exists (n1 ++ n2); split.
  - rewrite E2, E1, app_assoc; reflexivity.
  - apply Forall_app; auto.
Qed.

Lemma extends_emit (P : event -> Prop) ev st : P ev -> extends P st (emit ev st).
Proof. intros H; exists [ev]; split; [reflexivity | auto]. Qed.


Section Emits.
Variable P : event -> Prop.

Lemma emits_ret {A} (a : A) : emits P (ret a).
Proof. intros env st; apply extends_refl; reflexivity. Qed.

Lemma emits_throw {A} e : emits P (@throw A e).
Proof. intros env st; apply extends_refl; reflexivity. Qed.

Lemma emits_lift {A} (c : completion A) : emits P (lift c).
Proof. intros env st; apply extends_refl; reflexivity. Qed.

Lemma emits_bind {A B} (m : M A) (k : A -> M B) :
  emits P m -> (forall a, emits P (k a)) -> emits P (bind m k).
Proof.
  intros Hm Hk env st. unfold bind.
  specialize (Hm env st). destruct (m env st) as [[a|e] st1]; simpl in *; auto.
  eapply extends_trans; [exact Hm | apply Hk].
Qed.

Lemma emits_try_catch {A} (m : M A) (h : error -> M A) :
  emits P m -> (forall e, emits P (h e)) -> emits P (try_catch m h).
Proof.
  intros Hm Hh env st. unfold try_catch.
  specialize (Hm env st). destruct (m env st) as [[a|e] st1]; simpl in *; auto.
  eapply extends_trans; [exact Hm | apply Hh].
Qed.

Lemma emits_if {A} (b : bool) (m1 m2 : M A) :
  emits P m1 -> emits P m2 -> emits P (if b then m1 else m2).
Proof. destruct b; auto. Qed.

Lemma emits_fetch rq : P (Fetch rq) -> emits P (fetch rq).
Proof. intros H env st; apply extends_emit; exact H. Qed.

Lemma emits_confirm message : P (Confirm message) -> emits P (confirm message).
Proof. intros H env st; apply extends_emit; exact H. Qed.

Lemma emits_set_location_href href :
  P (Navigate href) -> emits P (set_location_href href).
Proof. intros H env st; apply extends_emit; exact H. Qed.

Lemma emits_console_error label e :
  P (ConsoleError label e) -> emits P (console_error label e).
Proof. intros H env st; apply extends_emit; exact H. Qed.

Lemma emits_preventDefault : P PreventDefault -> emits P preventDefault.
Proof. intros H env st; apply extends_emit; exact H. Qed.

Lemma emits_set_userEmail_textContent v : emits P (set_userEmail_textContent v).
Proof.
  intros env st; apply extends_refl; unfold set_userEmail_textContent.
  destruct (textContent_arg v); reflexivity.
Qed.

Lemma emits_set_feedbackList_innerHTML html :
  emits P (set_feedbackList_innerHTML html).
Proof. intros env st; apply extends_refl; reflexivity. Qed.

Lemma emits_control_value field : emits P (control_value field).
Proof. intros env st; apply extends_refl; reflexivity. Qed.

Lemma emits_feedbackForm_reset : emits P feedbackForm_reset.
Proof. intros env st; apply extends_refl; reflexivity. Qed.

Lemma emits_body_appendChild el : emits P (body_appendChild el).
Proof. intros env st; apply extends_refl; reflexivity. Qed.

Lemma emits_setTimeout cb delay : emits P (setTimeout cb delay).
Proof. intros env st; apply extends_refl; reflexivity. Qed.

Lemma emits_showNotification message type :
  emits P (showNotification message type).
Proof.
  unfold showNotification. apply emits_bind.
  - apply emits_body_appendChild.
  - intros; apply emits_setTimeout.
Qed.
End Emits.

(** Steps every proof by cases on the environment repeats. *)
Ltac step :=
  unfold bind, try_catch, lift, ret, throw, fetch, confirm, set_location_href,
    console_error, preventDefault, set_feedbackList_innerHTML, control_value,
    feedbackForm_reset; cbn [fst snd log emit].

Ltac pure := cbn [cbind negb ok json fst snd log emit].

Ltac log_eq :=
  rewrite ?log_emit, <- ?app_assoc; cbn [app]; reflexivity.

Lemma loadFeedback_loaded env st :
  loadFeedback env st =
  (Normal tt, loaded (network env (log st) get_feedback_request) st).
Proof.
  unfold loadFeedback, loaded, rendering. step.
  destruct (network env (log st) get_feedback_request) as [[o j]|e]; pure.
  2: { log_eq. }
  destruct o; pure.
  2: { log_eq. }
  destruct j as [feedbacks|e]; pure.
  2: { log_eq. }
  destruct (get feedbacks (lit "length")) as [len|e]; pure.
  2: { log_eq. }
  destruct (strict_equals_num len 0); pure; [reflexivity|].
  destruct (Array_map feedback_item feedbacks) as [items|e]; pure.
  - reflexivity.
  - log_eq.
Qed.

Lemma get_defined v key a key' :
  get v key = Normal a -> exists a', get v key' = Normal a'.
Proof.
  destruct v; cbn [get]; try discriminate; intros _;
    try destruct (jsstring_eqb key' (lit "length")); eauto.
Qed.

Lemma checkAuth_run env st :
  checkAuth env st =
  let fetched := emit (Fetch check_auth_request) st in
  let failed e :=
    (Normal VNull,
     emit (Navigate login_page)
       (emit (ConsoleError (lit "Auth check failed:") e) fetched)) in
  match check_auth_reply env st with
  | Throw e => failed e
  | Normal data =>
      match get data (lit "authenticated") with
      | Throw e => failed e
      | Normal authenticated =>
          if truthy authenticated
          then (get data (lit "email"), fetched)
          else (Normal VNull, emit (Navigate login_page) fetched)
      end
  end.
Proof.
  unfold checkAuth, check_auth_reply. step.
  destruct (network env (log st) check_auth_request) as [[o j]|e]; pure;
    [|reflexivity].
  destruct j as [data|e]; pure; [|reflexivity].
  destruct (get data (lit "authenticated")) as [a|e] eqn:Ha; pure;
    [|reflexivity].
  destruct (truthy a); pure; [|reflexivity].
  destruct (get_defined _ _ _ (lit "email") Ha) as [email ->]; reflexivity.
Qed.

(** ** Some runs *)

Example page_load_offline :
  new_events init offline (page_with no_input)
  = [Fetch check_auth_request;
     ConsoleError (lit "Auth check failed:") TypeError;
     Navigate login_page].
Proof. reflexivity. Qed.

Example page_load_signed_out :
  new_events init signed_out (page_with no_input)
  = [Fetch check_auth_request; Navigate login_page].
Proof. reflexivity. Qed.

Example page_load_signed_in :
  new_events init signed_in (page_with no_input)
  = [Fetch check_auth_request; Fetch get_feedback_request]
  /\ userEmail (run init signed_in (page_with no_input)) = lit "a@x.com"
  /\ feedbackList (run init signed_in (page_with no_input))
     = item_template (lit "CS101") (lit "5") (lit "Great course")
         (lit "2025-11-15 10:30")
       ++ item_template (lit "Algebra &lt;2&gt;") (lit "3")
            (lit "Sets &amp; maps") (lit "2025-11-14 09:00").
Proof. repeat split; vm_compute; reflexivity. Qed.

Example submit_signed_out :
  new_events feedbackForm_submit signed_out (page_with cs101)
  = [PreventDefault;
     Fetch (submit_feedback_request (lit "CS101") (lit "5") (lit "Great course"));
     ConsoleError (lit "Failed to submit feedback:")
       (Error (lit "Failed to submit feedback"))]
  /\ body_children (run feedbackForm_submit signed_out (page_with cs101))
     = [notification (lit "Failed to submit feedback. Please try again.")
          (lit "error")]
  /\ feedbackForm (run feedbackForm_submit signed_out (page_with cs101)) = cs101.
Proof. repeat split; vm_compute; reflexivity. Qed.

Example submit_blank_rating :
  new_events feedbackForm_submit signed_in
    (page_with {| courseName := lit "CS101"; rating := [];
                  comments := lit "Great course" |})
  = [PreventDefault].
Proof. reflexivity. Qed.

Example trim_course_name : trim (lit "  CS101 ") = lit "CS101".
Proof. reflexivity. Qed.

Example escapeHtml_markup :
  escapeHtml (VStr (lit "<b>Sets & maps</b>"))
  = Normal (lit "&lt;b&gt;Sets &amp; maps&lt;/b&gt;").
Proof. reflexivity. Qed.

(** ** Loading the page *)

(** C2: on page load, a failed check (the request rejected, a body that is
    not JSON, or [null] for a body) and a report that is not authenticated
    both send the page to [/login.html] without a request to [/api/feedback];
    a report that is authenticated never does, and with an email in it the
    email is rendered and the feedback list requested.  The email is rendered
    or the feedback requested only after a report that is authenticated. *)
Theorem init_gate env st :
  match check_auth_reply env st with
  | Throw e => sent_to_login env st (Some e)
  | Normal data =>
      match get data (lit "authenticated") with
      | Throw e => sent_to_login env st (Some e)
      | Normal authenticated =>
          if truthy authenticated then
            existsb is_navigation (new_events init env st) = false
            /\ match get data (lit "email") with
               | Normal email =>
                   match textContent_arg email with
                   | Normal text =>
                       truthy email = true ->
                       userEmail (run init env st) = text
                       /\ exists rest,
                           new_events init env st =
                           Fetch check_auth_request
                           :: Fetch get_feedback_request :: rest
                   | Throw _ => True
                   end
               | Throw _ => False
               end
          else sent_to_login env st None
      end
  end
  /\ (userEmail (run init env st) <> userEmail st
      \/ existsb requests_feedback (new_events init env st) = true ->
      exists data authenticated,
        check_auth_reply env st = Normal data
        /\ get data (lit "authenticated") = Normal authenticated
        /\ truthy authenticated = true).
Proof.
  pose proof (checkAuth_run env st) as HC.
  unfold sent_to_login, new_events, run, init, bind.
  destruct (check_auth_reply env st) as [data|e].
  2: { rewrite HC; cbn [snd truthy negb ret].
       rewrite !log_emit, <- !app_assoc, skipn_length_app.
       split; [repeat split|]; cbn [app userEmail feedbackList emit];
         intros [H|H]; [congruence | discriminate]. }
  destruct (get data (lit "authenticated")) as [authenticated|e] eqn:Ha.
  2: { rewrite HC; cbn [snd truthy negb ret].
       rewrite !log_emit, <- !app_assoc, skipn_length_app.
       split; [repeat split|]; cbn [app userEmail feedbackList emit];
         intros [H|H]; [congruence | discriminate]. }
  destruct (truthy authenticated) eqn:Ht.
  2: { rewrite HC; cbn [snd truthy negb ret].
       rewrite !log_emit, <- !app_assoc, skipn_length_app.
       split; [repeat split|]; cbn [app userEmail feedbackList emit];
         intros [H|H]; [congruence | discriminate]. }
  split; [|intros _; exists data, authenticated; auto].
  destruct (get_defined _ _ _ (lit "email") Ha) as [email He].
  rewrite HC, He. cbv beta iota zeta.
  destruct (truthy email) eqn:Hemail; cbn [negb snd ret].
  2: { rewrite log_emit, skipn_length_app. split.
       - reflexivity.
       - destruct (textContent_arg email); [discriminate | exact I]. }
  unfold set_userEmail_textContent.
  destruct (textContent_arg email) as [text|e].
  - rewrite loadFeedback_loaded. cbn [snd loaded log userEmail].
    rewrite log_emit, <- !app_assoc, skipn_length_app. cbn [app].
    split.
    + destruct (rendering _); reflexivity.
    + intros _; split; [reflexivity | eexists; reflexivity].
  - cbn [snd]. rewrite log_emit, skipn_length_app. split; [reflexivity|exact I].
Qed.

(** ** The listeners, case by case *)

Lemma showNotification_run message type env st :
  showNotification message type env st = (Normal tt, notified message type st).
Proof. reflexivity. Qed.

Lemma logoutBtn_click_run env st :
  logoutBtn_click env st =
  (Normal tt,
   match network env (log st) logout_request with
   | Normal _ => emit (Navigate login_page) (emit (Fetch logout_request) st)
   | Throw e =>
       emit (Navigate login_page)
         (emit (ConsoleError (lit "Logout failed:") e)
            (emit (Fetch logout_request) st))
   end).
Proof.
  unfold logoutBtn_click. step.
  destruct (network env (log st) logout_request); reflexivity.
Qed.

Lemma feedbackForm_submit_run env st :
  feedbackForm_submit env st =
  let cn := trim (courseName (feedbackForm st)) in
  let r := rating (feedbackForm st) in
  let cm := trim (comments (feedbackForm st)) in
  let st0 := emit PreventDefault st in
  (Normal tt,
   if is_empty cn || is_empty r || is_empty cm
   then notified (lit "Please fill in all fields") (lit "error") st0
   else submitted env cn r cm st0).
Proof.
  unfold feedbackForm_submit, submitted. step.
  destruct (_ || _); [reflexivity|].
  destruct (network env _ _) as [[o j]|e]; pure; [|reflexivity].
  destruct o; pure; [|reflexivity].
  rewrite loadFeedback_loaded. reflexivity.
Qed.

Lemma clearBtn_click_run env st :
  clearBtn_click env st =
  let st0 := emit (Confirm clear_question) st in
  (Normal tt, if dialog env (log st) clear_question then cleared env st0 else st0).
Proof.
  unfold clearBtn_click, cleared. step.
  destruct (dialog env (log st) clear_question); cbn [negb]; [|reflexivity].
  destruct (network env _ _) as [[o j]|e]; pure; [|reflexivity].
  destruct o; pure; [|reflexivity].
  rewrite loadFeedback_loaded. reflexivity.
Qed.

(** ** Logging out *)

(** C7: a click on logout sends [POST /api/logout] without a body and then
    assigns [/login.html] to the location, whether the request settles or is
    rejected (the rejection is written to the console first); the listener
    ends normally and sends nothing else.  The rest of the page is left as it
    was. *)
Theorem logout_always_navigates env st :
  url logout_request = lit "/api/logout"
  /\ method logout_request = lit "POST"
  /\ body logout_request = None
  /\ fst (logoutBtn_click env st) = Normal tt
  /\ new_events logoutBtn_click env st =
     match network env (log st) logout_request with
     | Normal _ => [Fetch logout_request; Navigate login_page]
     | Throw e => [Fetch logout_request;
                   ConsoleError (lit "Logout failed:") e;
                   Navigate login_page]
     end
  /\ userEmail (run logoutBtn_click env st) = userEmail st
  /\ feedbackList (run logoutBtn_click env st) = feedbackList st
  /\ feedbackForm (run logoutBtn_click env st) = feedbackForm st
  /\ body_children (run logoutBtn_click env st) = body_children st.
Proof.
  unfold new_events, run. rewrite logoutBtn_click_run. cbn [fst snd].
  repeat (split; [reflexivity|]).
  destruct (network env (log st) logout_request) as [r|e];
    rewrite !log_emit, <- !app_assoc, skipn_length_app; cbn [app];
    repeat split.
Qed.

(** ** Clearing *)

(** C10: the clear listener asks for confirmation first.  When the visitor
    declines, the dialog is all that happened: no request was made and the
    page, the feedback list with it, is as before.  When the visitor accepts,
    [DELETE /api/feedback/clear] is the next thing the listener does.  So the
    request is made exactly when the dialog is accepted. *)
Theorem clear_only_when_confirmed env st :
  (if dialog env (log st) clear_question then
     exists rest,
       new_events clearBtn_click env st =
       Confirm clear_question :: Fetch clear_feedback_request :: rest
   else
     new_events clearBtn_click env st = [Confirm clear_question]
     /\ existsb is_fetch (new_events clearBtn_click env st) = false
     /\ run clearBtn_click env st = emit (Confirm clear_question) st
     /\ feedbackList (run clearBtn_click env st) = feedbackList st)
  /\ (In (Fetch clear_feedback_request) (new_events clearBtn_click env st)
      <-> dialog env (log st) clear_question = true)
  /\ url clear_feedback_request = lit "/api/feedback/clear"
  /\ method clear_feedback_request = lit "DELETE".
Proof.
  unfold new_events, run. rewrite clearBtn_click_run. cbn [snd].
  destruct (dialog env (log st) clear_question).
  - assert (exists rest,
      skipn (List.length (log st)) (log (cleared env (emit (Confirm clear_question) st)))
      = Confirm clear_question :: Fetch clear_feedback_request :: rest) as [rest E].
    { unfold cleared.
      destruct (network env _ _) as [[o j]|e]; [destruct o|];
        cbn [ok notified loaded log];
        rewrite ?log_emit, <- ?app_assoc, skipn_length_app; cbn [app];
        eexists; reflexivity. }
    rewrite E. repeat split; eauto.
    intros _. right; left; reflexivity.
  - rewrite log_emit, skipn_length_app. repeat split; try discriminate.
    intros [H|[]]; discriminate.
Qed.

(** ** [trim] *)

Lemma trimStart_split s :
  exists pre,
    s = pre ++ trimStart s
    /\ forallb is_white_space pre = true
    /\ (forall c t', trimStart s = c :: t' -> is_white_space c = false).
Proof.
  induction s as [|c s (pre & E & W & F)]; cbn [trimStart].
  - exists []; repeat split; intros; discriminate.
  - destruct (is_white_space c) eqn:Hc.
    + exists (c :: pre); cbn [app forallb]; rewrite Hc, W, <- E; auto.
    + exists []; repeat split. intros c' t' [= <- <-]; exact Hc.
Qed.

Lemma trim_trimmed_of raw : trimmed_of raw (trim raw).
Proof.
  unfold trim, trimEnd.
  destruct (trimStart_split raw) as (pre & E1 & W1 & F1).
  set (t1 := trimStart raw) in *.
  destruct (trimStart_split (rev t1)) as (post & E2 & W2 & F2).
  set (t2 := trimStart (rev t1)) in *.
  assert (Ht1 : t1 = rev t2 ++ rev post).
  { rewrite <- rev_app_distr, <- E2, rev_involutive; reflexivity. }
  exists pre, (rev post). repeat split.
  - rewrite <- Ht1; exact E1.
  - exact W1.
  - rewrite forallb_forall in *. intros x Hx; apply W2, in_rev, Hx.
  - intros c t' Hc.
    destruct post as [|p post'] using rev_ind.
    + cbn [rev] in Ht1. rewrite app_nil_r in Ht1.
      apply (F1 c t'). rewrite Ht1; exact Hc.
    + apply (F1 c (t' ++ rev (post' ++ [p]))).
      rewrite Ht1, Hc; reflexivity.
  - intros c t' Hc. apply (F2 c (rev t')).
    rewrite <- (rev_involutive t2), Hc, rev_app_distr; reflexivity.
Qed.

(** ** Submitting *)

Lemma submitted_log env cn r cm st0 :
  exists rest,
    log (submitted env cn r cm st0) =
    log st0 ++ Fetch (submit_feedback_request cn r cm) :: rest.
Proof.
  unfold submitted.
  destruct (network env _ _) as [[o j]|e]; [destruct o|];
    cbn [ok notified loaded reset log];
    rewrite ?log_emit, <- ?app_assoc; cbn [app]; eexists; reflexivity.
Qed.


(** C1, as the script has it: a submission whose course name and comments
    are not blank and whose rating is not empty sends
    [POST /api/feedback], with credentials and the JSON content type, and a
    body whose keys are exactly [courseName], [rating] and [comments].  The
    rating in it is the value of the rating control, a string, as it is: the
    listener neither converts it to a number nor compares it with 1 and 5. *)
Theorem submit_posts_feedback env st
  (Hcourse : trim (courseName (feedbackForm st)) <> [])
  (Hrating : rating (feedbackForm st) <> [])
  (Hcomments : trim (comments (feedbackForm st)) <> []) :
  exists rq rest props,
    new_events feedbackForm_submit env st = PreventDefault :: Fetch rq :: rest
    /\ url rq = lit "/api/feedback"
    /\ method rq = lit "POST"
    /\ credentials rq = include
    /\ headers rq = [(lit "Content-Type", lit "application/json")]
    /\ body rq = Some (VObj props)
    /\ map fst props = [lit "courseName"; lit "rating"; lit "comments"]
    /\ lookup (lit "courseName") props = VStr (trim (courseName (feedbackForm st)))
    /\ lookup (lit "rating") props = VStr (rating (feedbackForm st))
    /\ lookup (lit "comments") props = VStr (trim (comments (feedbackForm st))).
Proof.
  unfold new_events, run. rewrite feedbackForm_submit_run. cbv zeta; cbn [snd].
  set (cn := trim (courseName (feedbackForm st))) in *.
  set (r := rating (feedbackForm st)) in *.
  set (cm := trim (comments (feedbackForm st))) in *.
  replace (is_empty cn || is_empty r || is_empty cm) with false.
  2: { destruct cn, r, cm; try reflexivity; congruence. }
  destruct (submitted_log env cn r cm (emit PreventDefault st)) as [rest E].
  rewrite E, log_emit, <- app_assoc, skipn_length_app. cbn [app].
  exists (submit_feedback_request cn r cm), rest. eexists.
  repeat split.
Qed.

Lemma submit_posts_feedback_witness :
  exists rq rest props,
    new_events feedbackForm_submit offline (page_with cs101)
    = PreventDefault :: Fetch rq :: rest
    /\ url rq = lit "/api/feedback"
    /\ method rq = lit "POST"
    /\ credentials rq = include
    /\ headers rq = [(lit "Content-Type", lit "application/json")]
    /\ body rq = Some (VObj props)
    /\ map fst props = [lit "courseName"; lit "rating"; lit "comments"]
    /\ lookup (lit "courseName") props = VStr (trim (lit "  CS101 "))
    /\ lookup (lit "rating") props = VStr (lit "5")
    /\ lookup (lit "comments") props = VStr (trim (lit "Great course")).
Proof.
  apply (submit_posts_feedback offline (page_with cs101));
    vm_compute; discriminate.
Defined.

(** C1 as it is stated fails on the form filled with [CS101], [5] and
    [Great course]: the body of the request carries the rating as the string
    ["5"], so no integer, in the range from 1 to 5 or outside it, is the
    rating of the body. *)
Lemma submit_sends_rating_as_string :
  exists rq rest props,
    new_events feedbackForm_submit offline (page_with cs101)
    = PreventDefault :: Fetch rq :: rest
    /\ body rq = Some (VObj props)
    /\ lookup (lit "rating") props = VStr (lit "5")
    /\ ~ (exists z : Z, lookup (lit "rating") props = VNum z
                        /\ (1 <= z <= 5)%Z).
Proof.
  eexists; eexists; eexists.
  split; [vm_compute; reflexivity|].
  split; [reflexivity|].
  split; [reflexivity|].
  intros (z & H & _). vm_compute in H. discriminate.
Qed.

(** ** What every run of the script sends, and where it stays *)

Ltac emits_auto :=
  repeat first
    [ apply emits_bind | apply emits_try_catch | apply emits_if
    | apply emits_ret | apply emits_throw | apply emits_lift
    | apply emits_fetch | apply emits_confirm | apply emits_set_location_href
    | apply emits_console_error | apply emits_preventDefault
    | apply emits_set_userEmail_textContent
    | apply emits_set_feedbackList_innerHTML | apply emits_control_value
    | apply emits_feedbackForm_reset | apply emits_showNotification
    | intro ].

Lemma api_request_credentials rq : api_request rq -> credentials rq = include.
Proof.
  intros [->|[->|[->|[->|(cn & r & cm & ->)]]]]; reflexivity.
Qed.

Lemma loadFeedback_credentialed : emits credentialed_api_call loadFeedback.
Proof.
  unfold loadFeedback; emits_auto; cbn; try exact I.
  split; [unfold api_request; auto | reflexivity].
Qed.

Lemma script_credentialed e : emits credentialed_api_call (script e).
Proof.
  destruct e;
    cbn [script];
    unfold init, checkAuth, logoutBtn_click, feedbackForm_submit, clearBtn_click;
    emits_auto;
    try apply loadFeedback_credentialed;
    cbn [credentialed_api_call]; try exact I;
    (split; [unfold api_request; eauto 10 | reflexivity]).
Qed.

Lemma visit_extends P env entries :
  (forall e, emits P (script e)) ->
  forall st, extends P st (visit env entries st).
Proof.
  intros H. induction entries as [|e entries IH]; intros st; cbn [visit fold_left].
  - apply extends_refl; reflexivity.
  - eapply extends_trans; [apply (H e env st) | apply IH].
Qed.

(** C4: whatever a visit runs of the script (the load of the page, and any
    clicks on logout, submissions and clicks on clear after it, in any
    order) and whatever the network and the visitor answer, each request it
    sends is one of the five calls of the API (check-auth, logout, get
    feedback, submit feedback, clear feedback) and is sent with
    [credentials: 'include']. *)
Theorem every_request_includes_credentials env entries st :
  Forall credentialed_api_call
    (skipn (List.length (log st)) (log (visit env entries st)))
  /\ (forall rq,
        In (Fetch rq) (skipn (List.length (log st)) (log (visit env entries st))) ->
        credentials rq = include).
Proof.
  destruct (visit_extends credentialed_api_call env entries
              script_credentialed st) as (new & E & F).
  rewrite E, skipn_length_app. split; [exact F|].
  intros rq Hin. rewrite Forall_forall in F. apply (F _ Hin).
Qed.








(** ** Rendering the list *)

Lemma join_nil_concat parts : join [] parts = List.concat parts.
Proof.
  induction parts as [|p parts IH]; [reflexivity|].
  cbn [join List.concat]. destruct parts as [|q parts].
  - cbn [List.concat]. rewrite app_nil_r; reflexivity.
  - rewrite <- IH. reflexivity.
Qed.

Lemma primitive_ToString v : primitive v = true -> exists s, ToString v = Normal s.
Proof.
  destruct v as [| |[|]| | | | |]; cbn [primitive ToString]; try discriminate; eauto.
Qed.

Lemma primitive_escapeHtml v :
  primitive v = true -> exists s, escapeHtml v = Normal s.
Proof.
  intros H. unfold escapeHtml.
  assert (exists s, textContent_arg v = Normal s) as [s ->].
  { destruct v; try discriminate; cbn [textContent_arg]; eauto;
      apply primitive_ToString; reflexivity. }
  cbn [cbind]. eauto.
Qed.

Lemma feedback_item_shows feedback html :
  feedback_item feedback = Normal html <-> shows feedback html.
Proof.
  unfold feedback_item, shows. split.
  - destruct (get feedback (lit "courseName")) as [cn|]; cbn [cbind]; [|discriminate].
    destruct (escapeHtml cn) as [course|] eqn:E1; cbn [cbind]; [|discriminate].
    destruct (get feedback (lit "rating")) as [r|]; cbn [cbind]; [|discriminate].
    destruct (ToString r) as [rating|] eqn:E2; cbn [cbind]; [|discriminate].
    destruct (get feedback (lit "comments")) as [cm|]; cbn [cbind]; [|discriminate].
    destruct (escapeHtml cm) as [comments|] eqn:E3; cbn [cbind]; [|discriminate].
    destruct (get feedback (lit "date")) as [d|]; cbn [cbind]; [|discriminate].
    destruct (ToString d) as [date|] eqn:E4; cbn [cbind]; [|discriminate].
    intros [= <-]. exists cn, r, cm, d, course, rating, comments, date.
    repeat split; assumption.
  - intros (cn & r & cm & d & course & rating & comments & date
            & -> & -> & -> & -> & H1 & H2 & H3 & H4 & ->).
    cbn [cbind]. rewrite H1; cbn [cbind]. rewrite H2; cbn [cbind].
    rewrite H3; cbn [cbind]. rewrite H4; reflexivity.
Qed.

Lemma feedback_record_item feedback :
  feedback_record feedback = true -> exists html, feedback_item feedback = Normal html.
Proof.
  destruct feedback as [| | | | | | |props]; try discriminate.
  cbn [feedback_record]. rewrite !andb_true_iff. intros [[[H1 H2] H3] H4].
  destruct (primitive_escapeHtml _ H1) as [course E1].
  destruct (primitive_ToString _ H2) as [rating E2].
  destruct (primitive_escapeHtml _ H3) as [comments E3].
  destruct (primitive_ToString _ H4) as [date E4].
  exists (item_template course rating comments date).
  apply feedback_item_shows.
  exists (lookup (lit "courseName") props), (lookup (lit "rating") props),
    (lookup (lit "comments") props), (lookup (lit "date") props),
    course, rating, comments, date.
  repeat split; assumption.
Qed.

Lemma feedback_records_items items :
  forallb feedback_record items = true ->
  exists htmls,
    sequence (map feedback_item items) = Normal htmls
    /\ Forall2 (fun feedback html => feedback_item feedback = Normal html)
         items htmls.
Proof.
  induction items as [|f items IH]; cbn [forallb map sequence].
  - exists []; split; [reflexivity | constructor].
  - rewrite andb_true_iff. intros [Hf Hrest].
    destruct (feedback_record_item f Hf) as [html E].
    destruct (IH Hrest) as (htmls & Es & F).
    exists (html :: htmls). rewrite E, Es. split; [reflexivity|].
    constructor; assumption.
Qed.

Lemma item_template_starts_a_line course rating comments date :
  exists rest, item_template course rating comments date = 10%N :: rest.
Proof. unfold item_template, nl. cbn [app]. eexists; reflexivity. Qed.

Lemma get_array_length items :
  get (VArr items) (lit "length") = Normal (VNum (Z.of_nat (List.length items))).
Proof. reflexivity. Qed.

Lemma sequence_Forall2 {A B} (f : A -> completion B) l hs :
  sequence (map f l) = Normal hs -> Forall2 (fun x h => f x = Normal h) l hs.
Proof.
  revert hs. induction l as [|x l IH]; cbn [map sequence]; intros hs.
  - intros [= <-]; constructor.
  - destruct (f x) as [h|e] eqn:E; [|discriminate].
    destruct (sequence (map f l)) as [hs'|e]; [|discriminate].
    intros [= <-]. constructor; [exact E | apply IH; reflexivity].
Qed.

Lemma empty_state_not_items f items hs :
  sequence (map feedback_item (f :: items)) = Normal hs ->
  List.concat hs <> empty_state_html.
Proof.
  intros Es E. apply sequence_Forall2 in Es.
  inversion Es as [|? html ? hs' Hs _]; subst.
  apply feedback_item_shows in Hs.
  destruct Hs as (cn & r & cm & d & course & rating & comments & date
                  & _ & _ & _ & _ & _ & _ & _ & _ & ->).
  destruct (item_template_starts_a_line course rating comments date)
    as [rest Er].
  rewrite Er in E. cbn [List.concat app] in E.
  vm_compute in E. discriminate.
Qed.

Lemma innerHTML_textContent el text :
  innerHTML (set_textContent el text) = flat_map escape_unit text.
Proof.
  unfold innerHTML, set_textContent; cbn [childNodes].
  destruct text as [|c text]; cbn [is_empty flat_map serialize]; [reflexivity|].
  rewrite app_nil_r; reflexivity.
Qed.

Lemma plain_escape s : plain s = true -> flat_map escape_unit s = s.
Proof.
  unfold plain. induction s as [|c s IH]; cbn [forallb flat_map]; [reflexivity|].
  rewrite andb_true_iff, negb_true_iff, !orb_false_iff.
  intros [[[[H1 H2] H3] H4] Hs]. rewrite (IH Hs).
  unfold escape_unit. rewrite H1, H2, H3, H4. reflexivity.
Qed.

Lemma markup_text s : flat_map markup (text s) = flat_map escape_unit s.
Proof.
  unfold text. destruct s as [|c s]; cbn [is_empty flat_map markup];
    [reflexivity | apply app_nil_r].
Qed.

Lemma markup_item_raw course rating comments date :
  flat_map markup (item Raw course rating comments date)
  = item_template (flat_map escape_unit course) rating
      (flat_map escape_unit comments) date.
Proof.
  unfold item, item_template. cbn [flat_map markup].
  rewrite !markup_text.
  rewrite !(plain_escape (nl 12)), !(plain_escape (nl 16)),
    !(plain_escape (nl 8)), !(plain_escape (lit "Rating: ")),
    !(plain_escape (lit "/5")), !(plain_escape (lit "Submitted on "))
    by reflexivity.
  rewrite ?app_nil_r, <- ?app_assoc. reflexivity.
Qed.

Lemma markup_item_txt course rating comments date :
  plain rating = true -> plain date = true ->
  flat_map markup (item Txt course rating comments date)
  = flat_map markup (item Raw course rating comments date).
Proof.
  intros Hr Hd. unfold item. cbn [flat_map markup].
  rewrite (plain_escape rating Hr), (plain_escape date Hd). reflexivity.
Qed.

Lemma flat_map_concat {A B} (f : A -> list B) l :
  flat_map f (List.concat l) = List.concat (map (flat_map f) l).
Proof.
  induction l as [|x l IH]; cbn [List.concat map]; [reflexivity|].
  rewrite flat_map_app, IH. reflexivity.
Qed.

Lemma escapeHtml_text v out :
  escapeHtml v = Normal out ->
  exists s, textContent_arg v = Normal s /\ out = flat_map escape_unit s.
Proof.
  unfold escapeHtml.
  destruct (textContent_arg v) as [s|e]; cbn [cbind]; [|discriminate].
  intros [= <-]. exists s. rewrite innerHTML_textContent. auto.
Qed.

Lemma feedback_item_displays feedback html :
  feedback_item feedback = Normal html ->
  exists pieces,
    displays Raw feedback pieces /\ html = flat_map markup pieces.
Proof.
  intros H. apply feedback_item_shows in H.
  destruct H as (cn & r & cm & d & course & rating & comments & date
                 & H1 & H2 & H3 & H4 & H5 & H6 & H7 & H8 & ->).
  destruct (escapeHtml_text _ _ H5) as (ct & Hct & ->).
  destruct (escapeHtml_text _ _ H7) as (mt & Hmt & ->).
  exists (item Raw ct rating mt date). split.
  - exists cn, r, cm, d, ct, rating, mt, date. repeat split; assumption.
  - symmetry. apply markup_item_raw.
Qed.

Lemma displays_plainly feedback pieces :
  plainly_stamped feedback = true ->
  displays Raw feedback pieces ->
  exists pieces',
    displays Txt feedback pieces'
    /\ flat_map markup pieces' = flat_map markup pieces.
Proof.
  unfold plainly_stamped, plain_field. rewrite andb_true_iff.
  intros [Hr Hd]
    (cn & r & cm & d & course & rating & comments & date
     & H1 & H2 & H3 & H4 & H5 & H6 & H7 & H8 & ->).
  rewrite H2, H6 in Hr. rewrite H4, H8 in Hd.
  exists (item Txt course rating comments date). split.
  - exists cn, r, cm, d, course, rating, comments, date. repeat split; assumption.
  - apply markup_item_txt; assumption.
Qed.

Lemma items_display items htmls :
  Forall2 (fun feedback html => feedback_item feedback = Normal html) items htmls ->
  exists pieces,
    Forall2 (displays Raw) items pieces
    /\ List.concat htmls = flat_map markup (List.concat pieces).
Proof.
  induction 1 as [|f html items htmls Hf _ (pieces & F & E)].
  - exists []. split; [constructor | reflexivity].
  - destruct (feedback_item_displays f html Hf) as (p & Hp & ->).
    exists (p :: pieces). split; [constructor; assumption|].
    cbn [List.concat]. rewrite flat_map_app, E. reflexivity.
Qed.

Lemma items_display_plainly items pieces :
  forallb plainly_stamped items = true ->
  Forall2 (displays Raw) items pieces ->
  exists pieces',
    Forall2 (displays Txt) items pieces'
    /\ flat_map markup (List.concat pieces')
       = flat_map markup (List.concat pieces).
Proof.
  intros Hp F. induction F as [|f p items pieces Hf _ IH].
  - exists []. split; [constructor | reflexivity].
  - cbn [forallb] in Hp. apply andb_true_iff in Hp. destruct Hp as [Hpf Hps].
    destruct (displays_plainly f p Hpf Hf) as (p' & Hp' & Ep).
    destruct (IH Hps) as (pieces' & F' & E').
    exists (p' :: pieces'). split; [constructor; assumption|].
    cbn [List.concat]. rewrite !flat_map_app, Ep, E'. reflexivity.
Qed.

(** C6: when [GET /api/feedback] succeeds with an array, the list shows the
    empty-state message exactly when the array is empty.  When the array
    holds feedback records, the HTML of the list is that of one item per
    record, in the order of the array (the script does not sort: the newest
    is first because the server sends it first): a [div] of class
    [feedback-item] that holds the record's course name, [Rating: ] its
    rating [/5], its comments and [Submitted on ] its date.  The course name
    and the comments are there as text; the rating and the date are written
    into the HTML as they are, and are there as text too when they are
    plain, as a number and a time stamp are. *)
Theorem loadFeedback_renders_each_record env st response items
  (Hreply : network env (log st) get_feedback_request = Normal response)
  (Hok : ok response = true)
  (Hjson : json response = Normal (VArr items)) :
  (feedbackList (run loadFeedback env st) = empty_state_html <-> items = [])
  /\ (forallb feedback_record items = true ->
      exists pieces,
        Forall2 (displays Raw) items pieces
        /\ feedbackList (run loadFeedback env st) =
           match items with
           | [] => empty_state_html
           | _ :: _ => flat_map markup (List.concat pieces)
           end)
  /\ (forallb feedback_record items = true ->
      forallb plainly_stamped items = true ->
      exists pieces,
        Forall2 (displays Txt) items pieces
        /\ feedbackList (run loadFeedback env st) =
           match items with
           | [] => empty_state_html
           | _ :: _ => flat_map markup (List.concat pieces)
           end).
Proof.
  unfold run. rewrite loadFeedback_loaded, Hreply. cbn [snd loaded feedbackList].
  unfold rendering. cbn [cbind]. rewrite Hok, Hjson. cbn [negb cbind].
  rewrite get_array_length. cbn [cbind strict_equals_num].
  destruct items as [|f items].
  - cbn. split; [tauto|].
    split; intros; exists []; (split; [constructor | reflexivity]).
  - replace (Z.of_nat (List.length (f :: items)) =? 0)%Z with false
      by (cbn [List.length]; symmetry; apply Z.eqb_neq; lia).
    unfold Array_map. split.
    + split; [|discriminate]. intros E. exfalso.
      destruct (sequence (map feedback_item (f :: items))) as [hs|e] eqn:Es;
        cbn [cbind] in E.
      * rewrite join_nil_concat in E.
        exact (empty_state_not_items f items hs Es E).
      * vm_compute in E; discriminate.
    + assert (G : forallb feedback_record (f :: items) = true ->
                  exists pieces,
                    Forall2 (displays Raw) (f :: items) pieces
                    /\ match items <~ sequence (map feedback_item (f :: items));;
                             Normal (join [] items) with
                       | Normal html => html
                       | Throw _ => load_failed_html
                       end = flat_map markup (List.concat pieces)).
      { intros Hitems.
        destruct (feedback_records_items (f :: items) Hitems) as (htmls & Es & F).
        rewrite Es. cbn [cbind]. rewrite join_nil_concat.
        apply items_display, F. }
      split; [exact G|].
      intros Hitems Hplain. destruct (G Hitems) as (pieces & F & E).
      destruct (items_display_plainly _ _ Hplain F) as (pieces' & F' & E').
      exists pieces'. split; [exact F'|]. rewrite E, E'. reflexivity.
Qed.

Lemma loadFeedback_renders_each_record_witness :
  let env := replying {| ok := true; json := Normal (VArr two_records) |} true in
  let st := page_with no_input in
  (feedbackList (run loadFeedback env st) = empty_state_html <-> two_records = [])
  /\ (forallb feedback_record two_records = true ->
      exists pieces,
        Forall2 (displays Raw) two_records pieces
        /\ feedbackList (run loadFeedback env st)
           = flat_map markup (List.concat pieces))
  /\ (forallb feedback_record two_records = true ->
      forallb plainly_stamped two_records = true ->
      exists pieces,
        Forall2 (displays Txt) two_records pieces
        /\ feedbackList (run loadFeedback env st)
           = flat_map markup (List.concat pieces)).
Proof.
  apply (loadFeedback_renders_each_record
           (replying {| ok := true; json := Normal (VArr two_records) |} true)
           (page_with no_input)
           {| ok := true; json := Normal (VArr two_records) |}
           two_records);
    reflexivity.
Defined.

(** ** Escaping *)

Lemma escape_unit_markup_free c : markup_free (escape_unit c).
Proof.
  unfold escape_unit, markup_free.
  destruct (N.eqb_spec c 38); [repeat constructor; discriminate|].
  destruct (N.eqb_spec c 160); [repeat constructor; discriminate|].
  destruct (N.eqb_spec c 60); [repeat constructor; discriminate|].
  destruct (N.eqb_spec c 62); [repeat constructor; discriminate|].
  repeat constructor; assumption.
Qed.

Lemma flat_map_escape_markup_free text : markup_free (flat_map escape_unit text).
Proof.
  unfold markup_free. induction text as [|c text IH]; cbn [flat_map].
  - constructor.
  - apply Forall_app; split; [apply escape_unit_markup_free | exact IH].
Qed.

Lemma escapeHtml_escaped_text v out :
  escapeHtml v = Normal out -> escaped_text v out.
Proof.
  unfold escapeHtml, escaped_text.
  destruct (textContent_arg v) as [text|e]; cbn [cbind]; [|discriminate].
  intros [= <-]. exists text. split; [reflexivity|]. split; [reflexivity|].
  rewrite innerHTML_textContent. split; [reflexivity|].
  apply flat_map_escape_markup_free.
Qed.

(** C8: an item of the rendered list is the [div] of class [feedback-item]
    with the course name and the comments as text nodes and the rating and
    the date written into the HTML as they are.  So the course name and the
    comments are in it as [escapeHtml] returns them, that is as the
    serialisation of a text node holding them, which has no [<] and no [>]
    left, while the rating and the date are converted to strings and
    nothing more: a rating or a date that is a string is in the HTML
    unchanged, markup and all. *)
Theorem item_escapes_course_and_comments_only feedback html
  (Hitem : feedback_item feedback = Normal html) :
  exists cn r cm d course rating comments date course_text comments_text,
    get feedback (lit "courseName") = Normal cn
    /\ get feedback (lit "rating") = Normal r
    /\ get feedback (lit "comments") = Normal cm
    /\ get feedback (lit "date") = Normal d
    /\ html = item_template course rating comments date
    /\ escapeHtml cn = Normal course
    /\ escaped_text cn course
    /\ escapeHtml cm = Normal comments
    /\ escaped_text cm comments
    /\ ToString r = Normal rating
    /\ ToString d = Normal date
    /\ (forall s, r = VStr s -> rating = s)
    /\ (forall s, d = VStr s -> date = s)
    /\ textContent_arg cn = Normal course_text
    /\ textContent_arg cm = Normal comments_text
    /\ html = flat_map markup (item Raw course_text rating comments_text date)
    /\ markup (Txt course_text) = course
    /\ markup (Txt comments_text) = comments
    /\ markup (Raw rating) = rating
    /\ markup (Raw date) = date.
Proof.
  apply feedback_item_shows in Hitem.
  destruct Hitem as (cn & r & cm & d & course & rating & comments & date
                     & H1 & H2 & H3 & H4 & H5 & H6 & H7 & H8 & ->).
  destruct (escapeHtml_text _ _ H5) as (ct & Hct & Ec).
  destruct (escapeHtml_text _ _ H7) as (mt & Hmt & Em).
  exists cn, r, cm, d, course, rating, comments, date, ct, mt.
  repeat (split; [assumption|]).
  split; [reflexivity|].
  split; [assumption|]. split; [apply escapeHtml_escaped_text, H5|].
  split; [assumption|]. split; [apply escapeHtml_escaped_text, H7|].
  split; [assumption|]. split; [assumption|].
  split; [intros s ->; cbn [ToString] in *; congruence|].
  split; [intros s ->; cbn [ToString] in *; congruence|].
  split; [assumption|]. split; [assumption|].
  split; [rewrite markup_item_raw, <- Ec, <- Em; reflexivity|].
  cbn [markup]. repeat split; auto.
Qed.

Lemma item_escapes_course_and_comments_only_witness :
  feedback_item marked_up_record = Normal marked_up_html
  /\ exists cn r cm d course rating comments date course_text comments_text,
    get marked_up_record (lit "courseName") = Normal cn
    /\ get marked_up_record (lit "rating") = Normal r
    /\ get marked_up_record (lit "comments") = Normal cm
    /\ get marked_up_record (lit "date") = Normal d
    /\ marked_up_html = item_template course rating comments date
    /\ escapeHtml cn = Normal course
    /\ escaped_text cn course
    /\ escapeHtml cm = Normal comments
    /\ escaped_text cm comments
    /\ ToString r = Normal rating
    /\ ToString d = Normal date
    /\ (forall s, r = VStr s -> rating = s)
    /\ (forall s, d = VStr s -> date = s)
    /\ textContent_arg cn = Normal course_text
    /\ textContent_arg cm = Normal comments_text
    /\ marked_up_html
       = flat_map markup (item Raw course_text rating comments_text date)
    /\ markup (Txt course_text) = course
    /\ markup (Txt comments_text) = comments
    /\ markup (Raw rating) = rating
    /\ markup (Raw date) = date.
Proof.
  split; [vm_compute; reflexivity|].
  apply (item_escapes_course_and_comments_only marked_up_record marked_up_html).
  vm_compute; reflexivity.
Defined.

(** ** Isolation of owners in the repository *)

Lemma insert_In f g l :
  In g (FeedbackRepository.insert f l) <-> g = f \/ In g l.
Proof.
  induction l as [|h l IH]; cbn [FeedbackRepository.insert In].
  - intuition.
  - destruct (Nat.leb _ _); cbn [In]; [intuition|].
    rewrite IH. intuition.
Qed.

Lemma newest_first_In g l :
  In g (FeedbackRepository.newest_first l) <-> In g l.
Proof.
  unfold FeedbackRepository.newest_first.
  induction l as [|f l IH]; cbn [fold_right In]; [tauto|].
  rewrite insert_In, IH. intuition.
Qed.

Lemma list_In g owner st :
  In g (FeedbackRepository.list owner st)
  <-> In g (FeedbackRepository.rows st) /\ FeedbackRepository.ownerId g = owner.
Proof.
  unfold FeedbackRepository.list, FeedbackRepository.owned_by.
  rewrite newest_first_In, filter_In, Nat.eqb_eq. tauto.
Qed.

Lemma filter_filter_other (A B : nat) (l : list FeedbackRepository.Feedback) :
  A <> B ->
  filter (FeedbackRepository.owned_by B)
    (filter (fun f => negb (FeedbackRepository.owned_by A f)) l)
  = filter (FeedbackRepository.owned_by B) l.
Proof.
  intros HAB. unfold FeedbackRepository.owned_by.
  induction l as [|f l IH]; [reflexivity|]. cbn [filter].
  destruct (Nat.eqb_spec (FeedbackRepository.ownerId f) A) as [EA|NA];
    cbn [negb filter].
  - destruct (Nat.eqb_spec (FeedbackRepository.ownerId f) B) as [EB|NB];
      [congruence | exact IH].
  - destruct (Nat.eqb (FeedbackRepository.ownerId f) B); rewrite IH; reflexivity.
Qed.

Lemma clearAll_other A B st :
  A <> B ->
  FeedbackRepository.list B (snd (FeedbackRepository.clearAll A st))
  = FeedbackRepository.list B st.
Proof.
  intros HAB. unfold FeedbackRepository.list, FeedbackRepository.clearAll.
  cbn [snd FeedbackRepository.rows]. rewrite filter_filter_other; auto.
Qed.

Lemma create_other A B cn r cm now st f st' :
  A <> B ->
  FeedbackRepository.create A cn r cm now st = inl (f, st') ->
  FeedbackRepository.ownerId f = A
  /\ FeedbackRepository.rows st' = f :: FeedbackRepository.rows st
  /\ FeedbackRepository.list B st' = FeedbackRepository.list B st.
Proof.
  intros HAB. unfold FeedbackRepository.create.
  destruct (_ || _); [discriminate|]. intros [= <- <-].
  split; [reflexivity|]. split; [reflexivity|].
  unfold FeedbackRepository.list, FeedbackRepository.owned_by.
  cbn [FeedbackRepository.rows filter FeedbackRepository.ownerId].
  destruct (Nat.eqb_spec A B); [contradiction | reflexivity].
Qed.

Lemma insert_newest_first f l :
  Sorted FeedbackRepository.not_older l ->
  Sorted FeedbackRepository.not_older (FeedbackRepository.insert f l).
Proof.
  induction 1 as [|g l Hs IH Hd]; cbn [FeedbackRepository.insert].
  - repeat constructor.
  - destruct (Nat.leb_spec (FeedbackRepository.createdAt g)
                (FeedbackRepository.createdAt f)) as [Hle|Hlt].
    + constructor; [constructor; assumption|]. constructor. exact Hle.
    + constructor; [exact IH|].
      destruct l as [|h l]; cbn [FeedbackRepository.insert].
      * constructor. unfold FeedbackRepository.not_older. lia.
      * destruct (Nat.leb _ _); constructor.
        -- unfold FeedbackRepository.not_older. lia.
        -- inversion Hd; assumption.
Qed.

(** The listing of an owner is in the order the API promises: no feedback
    comes before a newer one. *)
Lemma list_newest_first owner st :
  Sorted FeedbackRepository.not_older (FeedbackRepository.list owner st).
Proof.
  unfold FeedbackRepository.list, FeedbackRepository.newest_first.
  induction (filter (FeedbackRepository.owned_by owner) (FeedbackRepository.rows st))
    as [|f l IH]; cbn [fold_right].
  - constructor.
  - apply insert_newest_first, IH.
Qed.

(** C3: a feedback created under owner [A] is listed for [A], and [list(B)]
    of another owner [B] does not return it, then or in any later state of
    the store.  No operation scoped to [B] touches it: it is still listed
    for [A] after [B] clears or creates feedback, and [A]'s own operations
    leave what [B] is listed unchanged; only [clearAll(A)] removes it. *)
Theorem feedback_isolated_by_owner (A B : nat) (HAB : A <> B)
  st cn r cm now f st'
  (Hcreate : FeedbackRepository.create A cn r cm now st = inl (f, st')) :
  FeedbackRepository.ownerId f = A
  /\ In f (FeedbackRepository.list A st')
  /\ (forall later, ~ In f (FeedbackRepository.list B later))
  /\ FeedbackRepository.list B st' = FeedbackRepository.list B st
  /\ FeedbackRepository.list B (snd (FeedbackRepository.clearAll A st'))
     = FeedbackRepository.list B st'
  /\ FeedbackRepository.list A (snd (FeedbackRepository.clearAll B st'))
     = FeedbackRepository.list A st'
  /\ (forall cn' r' cm' now' g st'',
        FeedbackRepository.create B cn' r' cm' now' st' = inl (g, st'') ->
        FeedbackRepository.list A st'' = FeedbackRepository.list A st')
  /\ FeedbackRepository.list A (snd (FeedbackRepository.clearAll A st')) = [].
Proof.
  destruct (create_other A B cn r cm now st f st' HAB Hcreate) as (Ho & Hr & Hl).
  split; [exact Ho|].
  split; [apply list_In; rewrite Hr; split; [left; reflexivity | exact Ho]|].
  split; [intros later Hin; apply list_In in Hin; destruct Hin; congruence|].
  split; [exact Hl|].
  split; [apply clearAll_other; exact HAB|].
  split; [apply clearAll_other; congruence|].
  split.
  - intros cn' r' cm' now' g st'' Hg.
    apply (create_other B A cn' r' cm' now' st' g st''); [congruence | exact Hg].
  - unfold FeedbackRepository.list, FeedbackRepository.clearAll.
    cbn [snd FeedbackRepository.rows].
    assert (E : forall l,
               filter (FeedbackRepository.owned_by A)
                 (filter (fun f => negb (FeedbackRepository.owned_by A f)) l) = []).
    { induction l as [|h l IH]; [reflexivity|]. cbn [filter].
      destruct (FeedbackRepository.owned_by A h) eqn:Eh; cbn [negb filter];
        [exact IH | rewrite Eh; exact IH]. }
    rewrite E. reflexivity.
Qed.

Lemma feedback_isolated_by_owner_witness :
  let created :=
    FeedbackRepository.create 1 (lit "CS101") 5 (lit "Great course") 100
      FeedbackRepository.empty in
  exists f st',
    created = inl (f, st')
    /\ 1 <> 2
    /\ FeedbackRepository.ownerId f = 1
    /\ In f (FeedbackRepository.list 1 st')
    /\ (forall later, ~ In f (FeedbackRepository.list 2 later))
    /\ FeedbackRepository.list 2 st'
       = FeedbackRepository.list 2 FeedbackRepository.empty
    /\ FeedbackRepository.list 2 (snd (FeedbackRepository.clearAll 1 st'))
       = FeedbackRepository.list 2 st'
    /\ FeedbackRepository.list 1 (snd (FeedbackRepository.clearAll 2 st'))
       = FeedbackRepository.list 1 st'
    /\ (forall cn' r' cm' now' g st'',
          FeedbackRepository.create 2 cn' r' cm' now' st' = inl (g, st'') ->
          FeedbackRepository.list 1 st'' = FeedbackRepository.list 1 st')
    /\ FeedbackRepository.list 1 (snd (FeedbackRepository.clearAll 1 st')) = [].
Proof.
  eexists; eexists.
  split; [vm_compute; reflexivity|].
  split; [discriminate|].
  apply (feedback_isolated_by_owner 1 2 ltac:(discriminate)
           FeedbackRepository.empty (lit "CS101") 5%Z (lit "Great course") 100).
  vm_compute; reflexivity.
Defined.

(** ** Further properties of the script *)

(** X1: every listener catches what goes wrong inside it: [loadFeedback],
    the click on logout, the submission and the click on clear end normally
    whatever the network and the visitor answer.  The load of the page can
    end with an exception in one way only: the check reported an
    authenticated visitor with an email that cannot be converted to text. *)
Theorem listeners_end_normally env st :
  fst (loadFeedback env st) = Normal tt
  /\ fst (logoutBtn_click env st) = Normal tt
  /\ fst (feedbackForm_submit env st) = Normal tt
  /\ fst (clearBtn_click env st) = Normal tt
  /\ (forall e, fst (init env st) = Throw e ->
      exists data email,
        check_auth_reply env st = Normal data
        /\ get data (lit "email") = Normal email
        /\ truthy email = true
        /\ textContent_arg email = Throw e).
Proof.
  rewrite loadFeedback_loaded, logoutBtn_click_run, feedbackForm_submit_run,
    clearBtn_click_run.
  repeat (split; [reflexivity|]).
  intros e. pose proof (checkAuth_run env st) as HC.
  unfold init, bind. rewrite HC; clear HC. cbv zeta.
  destruct (check_auth_reply env st) as [data|e0]; [|discriminate].
  destruct (get data (lit "authenticated")) as [a|e0] eqn:Ha; [|discriminate].
  destruct (truthy a); [|discriminate].
  destruct (get_defined _ _ _ (lit "email") Ha) as [email He]. rewrite He.
  destruct (truthy email) eqn:Ht; cbn [negb]; [|discriminate].
  unfold set_userEmail_textContent.
  destruct (textContent_arg email) as [text|e1] eqn:Et.
  - rewrite loadFeedback_loaded. discriminate.
  - cbn [fst]. intros [= <-]. exists data, email. auto.
Qed.

(** X2: [checkAuth] never looks at the status of the response: two replies
    to the check with the same body, whatever their [ok], give the same
    result and the same page. *)
Theorem checkAuth_ignores_status env env' st r r'
  (Hreply : network env (log st) check_auth_request = Normal r)
  (Hreply' : network env' (log st) check_auth_request = Normal r')
  (Hbody : json r = json r') :
  checkAuth env st = checkAuth env' st.
Proof.
  rewrite !checkAuth_run. unfold check_auth_reply.
  rewrite Hreply, Hreply'. cbn [cbind]. rewrite Hbody. reflexivity.
Qed.

Lemma checkAuth_ignores_status_witness :
  checkAuth (replying (session_body true) true) (page_with no_input)
  = checkAuth (replying (session_body false) true) (page_with no_input).
Proof.
  apply (checkAuth_ignores_status
           (replying (session_body true) true)
           (replying (session_body false) true)
           (page_with no_input) (session_body true) (session_body false));
    reflexivity.
Defined.

(** X3: a check that reports an authenticated visitor without an email (or
    with an empty one) leaves the page as it was served: no redirect, no
    email, no request for the feedback. *)
Theorem init_without_email env st data authenticated email
  (Hreply : check_auth_reply env st = Normal data)
  (Hauth : get data (lit "authenticated") = Normal authenticated)
  (Hyes : truthy authenticated = true)
  (Hemail : get data (lit "email") = Normal email)
  (Hnone : truthy email = false) :
  init env st = (Normal tt, emit (Fetch check_auth_request) st).
Proof.
  pose proof (checkAuth_run env st) as HC.
  rewrite Hreply, Hauth in HC. cbv zeta in HC. rewrite Hyes, Hemail in HC.
  unfold init, bind. rewrite HC, Hnone. reflexivity.
Qed.

Lemma init_without_email_witness :
  init (replying anonymous_session true) (page_with no_input)
  = (Normal tt, emit (Fetch check_auth_request) (page_with no_input)).
Proof.
  apply (init_without_email (replying anonymous_session true)
           (page_with no_input)
           (VObj [(lit "authenticated", VBool true)]) (VBool true) VUndefined);
    reflexivity.
Defined.

Lemma requests_app a b : requests (a ++ b) = requests a ++ requests b.
Proof. unfold requests. apply flat_map_app. Qed.

Lemma loaded_new_requests reply st :
  exists tail,
    log (loaded reply st) = log st ++ Fetch get_feedback_request :: tail
    /\ requests tail = [].
Proof.
  unfold loaded; cbn [log].
  destruct (rendering reply); eexists; split; reflexivity.
Qed.

(** X4: a submission resets the form exactly when it was accepted (the
    fields filled and the response [ok]); a submission that is refused,
    by the listener or by the server, or that could not be sent, keeps what
    the visitor typed. *)
Theorem submit_resets_form_iff_accepted env st :
  feedbackForm (run feedbackForm_submit env st) =
  if submission_accepted env st then defaults st else feedbackForm st.
Proof.
  unfold run, submission_accepted, fields_filled, submission.
  rewrite feedbackForm_submit_run. cbv zeta; cbn [snd].
  destruct (_ || _); cbn [negb andb]; [reflexivity|].
  unfold submitted.
  destruct (network env _ _) as [[o j]|e]; cbn [failed ok negb];
    [destruct o|]; reflexivity.
Qed.

(** X5: what a submission sends: nothing when a field is blank; the [POST]
    alone when it fails; the [POST] and then the [GET] that reloads the
    list when it was accepted.  So the list is reloaded exactly after an
    accepted submission, and nothing is ever sent twice. *)
Theorem submit_requests env st :
  requests (new_events feedbackForm_submit env st) =
  if submission_accepted env st then [submission st; get_feedback_request]
  else if fields_filled st then [submission st]
  else [].
Proof.
  unfold new_events, run, submission_accepted, fields_filled, submission.
  rewrite feedbackForm_submit_run. cbv zeta; cbn [snd].
  destruct (_ || _); cbn [negb andb].
  - cbn [notified log]. rewrite log_emit, skipn_length_app. reflexivity.
  - unfold submitted.
    destruct (network env _ _) as [[o j]|e]; cbn [failed ok negb];
      [destruct o|]; cbn [negb notified log].
    + destruct (loaded_new_requests
                  (network env
                     (log (emit (Fetch (submit_feedback_request
                        (trim (courseName (feedbackForm st)))
                        (rating (feedbackForm st))
                        (trim (comments (feedbackForm st)))))
                        (emit PreventDefault st))) get_feedback_request)
                  (reset (emit (Fetch (submit_feedback_request
                        (trim (courseName (feedbackForm st)))
                        (rating (feedbackForm st))
                        (trim (comments (feedbackForm st)))))
                        (emit PreventDefault st)))) as (tail & E & Ht).
      rewrite E. cbn [reset log]. rewrite !log_emit, <- !app_assoc.
      rewrite skipn_length_app. cbn [app requests flat_map].
      fold (requests tail). rewrite Ht. reflexivity.
    + rewrite !log_emit, <- !app_assoc, skipn_length_app. reflexivity.
    + rewrite !log_emit, <- !app_assoc, skipn_length_app. reflexivity.
Qed.


(** X7: a submission or a clearing that did not go through leaves the
    displayed list as it was; one that went through replaces it by what the
    reload gives, which for a clearing is whatever the server then answers:
    the script does not empty the list by itself. *)
Theorem list_changes_only_by_reload env st :
  feedbackList (run feedbackForm_submit env st) =
  (if submission_accepted env st then
     reloaded_list
       (network env
          (log (emit (Fetch (submission st)) (emit PreventDefault st)))
          get_feedback_request)
   else feedbackList st)
  /\ feedbackList (run clearBtn_click env st) =
     (if clearing_accepted env st then
        reloaded_list
          (network env
             (log (emit (Fetch clear_feedback_request)
                     (emit (Confirm clear_question) st)))
             get_feedback_request)
      else feedbackList st).
Proof.
  split.
  - unfold run, submission_accepted, fields_filled, submission.
    rewrite feedbackForm_submit_run. cbv zeta; cbn [snd].
    destruct (_ || _); cbn [negb andb]; [reflexivity|].
    unfold submitted.
    destruct (network env _ _) as [[o j]|e]; cbn [failed ok negb];
      [destruct o|]; reflexivity.
  - unfold run, clearing_accepted. rewrite clearBtn_click_run.
    cbv zeta; cbn [snd].
    destruct (dialog env (log st) clear_question); cbn [andb]; [|reflexivity].
    unfold cleared.
    destruct (network env _ _) as [[o j]|e]; cbn [failed ok negb];
      [destruct o|]; reflexivity.
Qed.


Lemma sequence_null items :
  In VNull items -> exists e, sequence (map feedback_item items) = Throw e.
Proof.
  induction items as [|f items IH]; [intros []|].
  intros [->|Hin]; cbn [map sequence].
  - exists TypeError. reflexivity.
  - destruct (feedback_item f) as [html|e]; [|eauto].
    destruct (IH Hin) as [e ->]. eauto.
Qed.

(** X9: the list is rendered all or nothing: one [null] among the elements
    of the array makes [loadFeedback] drop every item and show the failure
    message, with the exception written to the console. *)
Theorem loadFeedback_one_null_fails_all env st response items
  (Hreply : network env (log st) get_feedback_request = Normal response)
  (Hok : ok response = true)
  (Hjson : json response = Normal (VArr items))
  (Hnull : In VNull items) :
  feedbackList (run loadFeedback env st) = load_failed_html
  /\ exists e,
       new_events loadFeedback env st =
       [Fetch get_feedback_request;
        ConsoleError (lit "Failed to load feedback:") e].
Proof.
  unfold new_events, run. rewrite loadFeedback_loaded, Hreply. cbn [snd].
  assert (exists e, rendering (Normal response) = Throw e) as [e E].
  { unfold rendering. cbn [cbind]. rewrite Hok, Hjson. cbn [negb cbind].
    rewrite get_array_length. cbn [cbind strict_equals_num].
    destruct items as [|f items]; [destruct Hnull|].
    replace (Z.of_nat (List.length (f :: items)) =? 0)%Z with false
      by (cbn [List.length]; symmetry; apply Z.eqb_neq; lia).
    unfold Array_map. destruct (sequence_null _ Hnull) as [e ->].
    cbn [cbind]. eauto. }
  unfold loaded. rewrite E. cbn [feedbackList log]. split; [reflexivity|].
  exists e. apply skipn_length_app.
Qed.

Lemma loadFeedback_one_null_fails_all_witness :
  let reply := {| ok := true; json := Normal (VArr (two_records ++ [VNull])) |} in
  feedbackList (run loadFeedback (replying reply true) (page_with no_input))
  = load_failed_html
  /\ exists e,
       new_events loadFeedback (replying reply true) (page_with no_input) =
       [Fetch get_feedback_request;
        ConsoleError (lit "Failed to load feedback:") e].
Proof.
  apply (loadFeedback_one_null_fails_all
           (replying {| ok := true;
                        json := Normal (VArr (two_records ++ [VNull])) |} true)
           (page_with no_input)
           {| ok := true; json := Normal (VArr (two_records ++ [VNull])) |}
           (two_records ++ [VNull]));
    try reflexivity.
  right; right; left; reflexivity.
Defined.

(** X10: a body that is not an array never renders items.  When its
    [length] is 0, as for the empty string or an object that says so, the
    list shows the empty-state message; in every other case ([null], a
    number, an object without [length], ...) the failure message. *)
Theorem loadFeedback_not_an_array env st response v
  (Hreply : network env (log st) get_feedback_request = Normal response)
  (Hok : ok response = true)
  (Hjson : json response = Normal v)
  (Hv : forall items, v <> VArr items) :
  feedbackList (run loadFeedback env st) =
  match get v (lit "length") with
  | Normal length =>
      if strict_equals_num length 0 then empty_state_html else load_failed_html
  | Throw _ => load_failed_html
  end.
Proof.
  unfold run. rewrite loadFeedback_loaded, Hreply. cbn [snd loaded feedbackList].
  unfold rendering. cbn [cbind]. rewrite Hok, Hjson. cbn [negb cbind].
  destruct (get v (lit "length")) as [len|e]; cbn [cbind]; [|reflexivity].
  destruct (strict_equals_num len 0); [reflexivity|].
  destruct v; try reflexivity. exfalso. eapply Hv; reflexivity.
Qed.

Lemma loadFeedback_not_an_array_witness :
  let reply := {| ok := true; json := Normal (VObj [(lit "error", VStr (lit "x"))]) |} in
  feedbackList (run loadFeedback (replying reply true) (page_with no_input))
  = load_failed_html.
Proof.
  apply (loadFeedback_not_an_array
           (replying {| ok := true;
                        json := Normal (VObj [(lit "error", VStr (lit "x"))]) |} true)
           (page_with no_input)
           {| ok := true; json := Normal (VObj [(lit "error", VStr (lit "x"))]) |}
           (VObj [(lit "error", VStr (lit "x"))]));
    try reflexivity.
  intros items; discriminate.
Defined.

(** ** More on escaping and trimming *)

Lemma escape_unit_app_inj c c' r r' :
  escape_unit c ++ r = escape_unit c' ++ r' -> c = c' /\ r = r'.
Proof.
  unfold escape_unit.
  destruct (N.eqb_spec c 38); [|destruct (N.eqb_spec c 160);
    [|destruct (N.eqb_spec c 60); [|destruct (N.eqb_spec c 62)]]];
  (destruct (N.eqb_spec c' 38); [|destruct (N.eqb_spec c' 160);
    [|destruct (N.eqb_spec c' 60); [|destruct (N.eqb_spec c' 62)]]]);
  subst; cbn; intros H; inversion H; subst; try congruence; auto.
Qed.

Lemma flat_map_escape_inj s s' :
  flat_map escape_unit s = flat_map escape_unit s' -> s = s'.
Proof.
  revert s'. induction s as [|c s IH]; intros [|c' s']; cbn [flat_map].
  - reflexivity.
  - unfold escape_unit.
    destruct (c' =? 38)%N; [discriminate|]. destruct (c' =? 160)%N; [discriminate|].
    destruct (c' =? 60)%N; [discriminate|]. destruct (c' =? 62)%N; discriminate.
  - unfold escape_unit.
    destruct (c =? 38)%N; [discriminate|]. destruct (c =? 160)%N; [discriminate|].
    destruct (c =? 60)%N; [discriminate|]. destruct (c =? 62)%N; discriminate.
  - intros H. apply escape_unit_app_inj in H. destruct H as [-> H].
    f_equal. apply IH, H.
Qed.

Lemma escapeHtml_string s : escapeHtml (VStr s) = Normal (flat_map escape_unit s).
Proof.
  unfold escapeHtml. cbn [textContent_arg ToString cbind].
  rewrite innerHTML_textContent. reflexivity.
Qed.

(** X11: [escapeHtml] loses nothing: two different texts never come out as
    the same HTML, so what the list shows for a course name or a comment
    determines the text that was stored. *)
Theorem escapeHtml_keeps_texts_apart s s' (Hdiff : s <> s') :
  escapeHtml (VStr s) <> escapeHtml (VStr s').
Proof.
  rewrite !escapeHtml_string. intros [= H].
  apply Hdiff, flat_map_escape_inj, H.
Qed.

Lemma escapeHtml_keeps_texts_apart_witness :
  lit "<" <> lit "&lt;"
  /\ escapeHtml (VStr (lit "<")) <> escapeHtml (VStr (lit "&lt;")).
Proof.
  split; [discriminate|].
  apply (escapeHtml_keeps_texts_apart (lit "<") (lit "&lt;")).
  discriminate.
Defined.

Lemma escape_unit_length c :
  1 <= List.length (escape_unit c)
  /\ ((c =? 38)%N || (c =? 160)%N || (c =? 60)%N || (c =? 62)%N = true ->
      2 <= List.length (escape_unit c)).
Proof.
  unfold escape_unit.
  destruct (c =? 38)%N; [vm_compute; split; intros; lia|].
  destruct (c =? 160)%N; [vm_compute; split; intros; lia|].
  destruct (c =? 60)%N; [vm_compute; split; intros; lia|].
  destruct (c =? 62)%N; [vm_compute; split; intros; lia|].
  cbn [orb List.length]. split; [lia | discriminate].
Qed.

Lemma flat_map_escape_length t :
  List.length t <= List.length (flat_map escape_unit t).
Proof.
  induction t as [|c t IH]; cbn [flat_map List.length]; [lia|].
  rewrite length_app. destruct (escape_unit_length c) as [H _]. lia.
Qed.

(** X12: [escapeHtml] returns a text without [&], [<], [>] and no-break
    spaces as it is, and only such a text: any of the four makes the result
    longer than the text. *)
Theorem escapeHtml_plain_text s :
  (plain s = true -> escapeHtml (VStr s) = Normal s)
  /\ (plain s = false ->
      exists out,
        escapeHtml (VStr s) = Normal out
        /\ List.length s < List.length out).
Proof.
  rewrite escapeHtml_string. unfold plain. split.
  - induction s as [|c s IH]; cbn [forallb flat_map]; [reflexivity|].
    rewrite andb_true_iff, negb_true_iff, !orb_false_iff.
    intros [[[[H1 H2] H3] H4] Hs].
    specialize (IH Hs). injection IH as IH. rewrite IH.
    unfold escape_unit. rewrite H1, H2, H3, H4. reflexivity.
  - intros H. eexists; split; [reflexivity|].
    induction s as [|c s IH]; cbn [forallb] in H; [discriminate|].
    cbn [flat_map List.length]. rewrite length_app.
    pose proof (flat_map_escape_length s) as G.
    destruct (escape_unit_length c) as [L1 L2].
    destruct ((c =? 38)%N || (c =? 160)%N || (c =? 60)%N || (c =? 62)%N) eqn:E;
      cbn [negb andb] in H.
    + specialize (L2 eq_refl). lia.
    + specialize (IH H). lia.
Qed.

Lemma trimStart_white_space s :
  forallb is_white_space s = true -> trimStart s = [].
Proof.
  induction s as [|c s IH]; cbn [forallb trimStart]; [reflexivity|].
  rewrite andb_true_iff. intros [-> Hs]. apply IH, Hs.
Qed.

Lemma trim_empty_iff_white_space s :
  is_empty (trim s) = forallb is_white_space s.
Proof.
  destruct (forallb is_white_space s) eqn:E.
  - unfold trim. rewrite (trimStart_white_space s E). reflexivity.
  - destruct (trim s) as [|c t] eqn:Et; [|reflexivity]. exfalso.
    destruct (trim_trimmed_of s) as (pre & post & Es & Wpre & Wpost & _).
    rewrite Et in Es. cbn [app] in Es.
    rewrite Es, forallb_app, Wpre, Wpost in E. discriminate.
Qed.

(** X13: the submit listener sends nothing exactly when the course name or
    the comments hold nothing but white space (or nothing at all) or the
    rating is empty; white space around a text does not count against it,
    and white space in the rating does not make it empty. *)
Theorem submit_sends_nothing_iff_blank env st :
  requests (new_events feedbackForm_submit env st) = []
  <-> (forallb is_white_space (courseName (feedbackForm st)) = true
       \/ rating (feedbackForm st) = []
       \/ forallb is_white_space (comments (feedbackForm st)) = true).
Proof.
  unfold new_events, run. rewrite feedbackForm_submit_run. cbv zeta; cbn [snd].
  rewrite !trim_empty_iff_white_space.
  destruct (forallb is_white_space (courseName (feedbackForm st))) eqn:E1;
    cbn [orb].
  { cbn [notified log]. rewrite log_emit, skipn_length_app. split; auto. }
  destruct (rating (feedbackForm st)) as [|c r] eqn:E2; cbn [is_empty orb].
  { cbn [notified log]. rewrite log_emit, skipn_length_app. split; auto. }
  destruct (forallb is_white_space (comments (feedbackForm st))) eqn:E3.
  { cbn [notified log]. rewrite log_emit, skipn_length_app. split; auto. }
  destruct (submitted_log env (trim (courseName (feedbackForm st))) (c :: r)
              (trim (comments (feedbackForm st))) (emit PreventDefault st))
    as [rest E].
  rewrite E, log_emit, <- app_assoc, skipn_length_app. cbn [app requests flat_map].
  split; [discriminate|]. intros [H|[H|H]]; discriminate.
Qed.

(** ** What the entries leave alone *)

Lemma init_frame env st :
  defaults (run init env st) = defaults st
  /\ feedbackForm (run init env st) = feedbackForm st
  /\ body_children (run init env st) = body_children st
  /\ timers (run init env st) = timers st.
Proof.
  pose proof (checkAuth_run env st) as HC.
  unfold run, init, bind. rewrite HC; clear HC. cbv zeta.
  destruct (check_auth_reply env st) as [data|e]; [|repeat split].
  destruct (get data (lit "authenticated")) as [a|e] eqn:Ha; [|repeat split].
  destruct (truthy a); [|repeat split].
  destruct (get_defined _ _ _ (lit "email") Ha) as [email ->].
  destruct (truthy email); cbn [negb]; [|repeat split].
  unfold set_userEmail_textContent.
  destruct (textContent_arg email); [|repeat split].
  rewrite loadFeedback_loaded. repeat split.
Qed.

Lemma submitted_frame env cn r cm st0 :
  defaults (submitted env cn r cm st0) = defaults st0
  /\ userEmail (submitted env cn r cm st0) = userEmail st0
  /\ exists message type base,
       submitted env cn r cm st0 = notified message type base
       /\ body_children base = body_children st0
       /\ timers base = timers st0.
Proof.
  unfold submitted.
  destruct (network env _ _) as [[o j]|e]; [destruct o|];
    (split; [reflexivity|]); (split; [reflexivity|]);
    do 3 eexists; (split; [reflexivity|]); split; reflexivity.
Qed.

Lemma cleared_frame env st0 :
  defaults (cleared env st0) = defaults st0
  /\ userEmail (cleared env st0) = userEmail st0
  /\ feedbackForm (cleared env st0) = feedbackForm st0
  /\ exists message type base,
       cleared env st0 = notified message type base
       /\ body_children base = body_children st0
       /\ timers base = timers st0.
Proof.
  unfold cleared.
  destruct (network env _ _) as [[o j]|e]; [destruct o|];
    repeat (split; [reflexivity|]);
    do 3 eexists; (split; [reflexivity|]); split; reflexivity.
Qed.

Ltac frame_goal :=
  try congruence; try assumption; try reflexivity;
  try (match goal with H : _ \/ _ |- _ => destruct H; discriminate end).

(** X14: what each entry of the script leaves alone, whatever happens.  None
    changes what [reset()] puts back.  The email shown is written by the
    load of the page only, the text in the form is changed by a submission
    only, a click on logout does not touch the list, and neither the load of
    the page nor the logout shows a notification or sets a timer. *)
Theorem entries_leave_the_rest e env st :
  untouched e st (run (script e) env st).
Proof.
  unfold untouched, run. destruct e; cbn [script].
  - destruct (init_frame env st) as (H1 & H2 & H3 & H4). unfold run in *.
    repeat split; intros; frame_goal.
  - rewrite logoutBtn_click_run. cbn [snd].
    destruct (network env _ _); repeat split; intros; frame_goal.
  - rewrite feedbackForm_submit_run. cbv zeta; cbn [snd].
    destruct (_ || _).
    + repeat split; intros; frame_goal.
    + destruct (submitted_frame env (trim (courseName (feedbackForm st)))
                  (rating (feedbackForm st)) (trim (comments (feedbackForm st)))
                  (emit PreventDefault st)) as (H1 & H2 & _).
      repeat split; intros; frame_goal.
  - rewrite clearBtn_click_run. cbv zeta; cbn [snd].
    destruct (dialog _ _ _).
    + destruct (cleared_frame env (emit (Confirm clear_question) st))
        as (H1 & H2 & H3 & _).
      repeat split; intros; frame_goal.
    + repeat split; intros; frame_goal.
Qed.

Lemma has_key_lookup key props :
  has_key key props = false -> lookup key props = VUndefined.
Proof.
  induction props as [|[k v] props IH]; cbn [has_key lookup]; [reflexivity|].
  rewrite orb_false_iff. intros [-> H]. apply IH, H.
Qed.

(** X16: what an item shows for a field the record does not have: nothing
    for the course name and the comments, which go through [escapeHtml],
    but the word [undefined] for the rating and the date, which are put in
    the template as they are.  The item is the [div] of class
    [feedback-item] with an empty course name, [Rating: undefined/5], empty
    comments and [Submitted on undefined]. *)
Theorem feedback_item_missing_fields props
  (Hcourse : has_key (lit "courseName") props = false)
  (Hrating : has_key (lit "rating") props = false)
  (Hcomments : has_key (lit "comments") props = false)
  (Hdate : has_key (lit "date") props = false) :
  feedback_item (VObj props)
  = Normal (flat_map markup (item Raw [] (lit "undefined") [] (lit "undefined")))
  /\ displays Raw (VObj props) (item Raw [] (lit "undefined") [] (lit "undefined"))
  /\ flat_map markup (item Raw [] (lit "undefined") [] (lit "undefined"))
     = flat_map markup (item Txt [] (lit "undefined") [] (lit "undefined")).
Proof.
  split; [|split].
  - unfold feedback_item. cbn [get cbind].
    rewrite (has_key_lookup _ _ Hcourse), (has_key_lookup _ _ Hrating),
      (has_key_lookup _ _ Hcomments), (has_key_lookup _ _ Hdate).
    cbn [escapeHtml textContent_arg ToString cbind].
    rewrite markup_item_raw. reflexivity.
  - exists VUndefined, VUndefined, VUndefined, VUndefined,
      [], (lit "undefined"), [], (lit "undefined").
    cbn [get].
    rewrite (has_key_lookup _ _ Hcourse), (has_key_lookup _ _ Hrating),
      (has_key_lookup _ _ Hcomments), (has_key_lookup _ _ Hdate).
    repeat split.
  - symmetry. apply markup_item_txt; reflexivity.
Qed.

Lemma feedback_item_missing_fields_witness :
  feedback_item (VObj [(lit "id", VNum 7)])
  = Normal (flat_map markup (item Raw [] (lit "undefined") [] (lit "undefined")))
  /\ displays Raw (VObj [(lit "id", VNum 7)])
       (item Raw [] (lit "undefined") [] (lit "undefined"))
  /\ flat_map markup (item Raw [] (lit "undefined") [] (lit "undefined"))
     = flat_map markup (item Txt [] (lit "undefined") [] (lit "undefined")).
Proof.
  apply (feedback_item_missing_fields [(lit "id", VNum 7)]); reflexivity.
Defined.

Lemma api_request_body_announced rq : api_request rq -> body_announced rq.
Proof.
  intros [->|[->|[->|[->|(cn & r & cm & ->)]]]].
  - left. split; [reflexivity|]. split; [reflexivity|]. left; reflexivity.
  - left. split; [reflexivity|]. split; [reflexivity|]. right; left; reflexivity.
  - left. split; [reflexivity|]. split; [reflexivity|]. left; reflexivity.
  - left. split; [reflexivity|]. split; [reflexivity|]. right; right; reflexivity.
  - right. repeat (split; [reflexivity|]). eexists; reflexivity.
Qed.

(** X17: in any visit, a request has a body only if it is the [POST] to
    [/api/feedback], and then it says so with the header
    [Content-Type: application/json]; every other request is a [GET], a
    [POST] or a [DELETE] without body and without header. *)
Theorem every_body_is_announced env entries st :
  Forall body_announced
    (requests (skipn (List.length (log st)) (log (visit env entries st)))).
Proof.
  destruct (visit_extends credentialed_api_call env entries
              script_credentialed st) as (new & E & F).
  rewrite E, skipn_length_app. clear E.
  induction F as [|ev new H _ IH]; [constructor|].
  change (requests (ev :: new))
    with ((match ev with Fetch rq => [rq] | _ => [] end) ++ requests new).
  destruct ev; cbn [app]; try exact IH.
  constructor; [|exact IH]. destruct H as [H _].
  apply api_request_body_announced, H.
Qed.

(** ** A notification and its timers *)

Lemma nth_error_length_app {A} (l : list A) x :
  nth_error (l ++ [x]) (List.length l) = Some x.
Proof. induction l as [|y l IH]; [reflexivity | exact IH]. Qed.

Lemma firstn_length_app {A} (l r : list A) : firstn (List.length l) (l ++ r) = l.
Proof.
  induction l as [|y l IH]; cbn [List.length firstn app].
  - destruct r; reflexivity.
  - rewrite IH; reflexivity.
Qed.

Lemma skipn_S_length_app {A} (l : list A) x :
  skipn (S (List.length l)) (l ++ [x]) = [].
Proof. induction l as [|y l IH]; [reflexivity | exact IH]. Qed.

Lemma attached_app from gone a b :
  attached from gone (a ++ b)
  = attached from gone a ++ attached (from + List.length a) gone b.
Proof.
  revert from. induction a as [|el a IH]; intros from; cbn [app attached List.length].
  - rewrite Nat.add_0_r. reflexivity.
  - rewrite IH, Nat.add_succ_r.
    destruct (existsb (Nat.eqb from) gone); reflexivity.
Qed.

Lemma attached_later from gone child els :
  from + List.length els <= child ->
  attached from (child :: gone) els = attached from gone els.
Proof.
  revert from. induction els as [|el els IH]; intros from H;
    cbn [attached List.length existsb] in *; [reflexivity|].
  rewrite IH by lia.
  destruct (Nat.eqb_spec from child); [lia | reflexivity].
Qed.

Lemma not_gone_yet child gone :
  Forall (fun c => c < child) gone -> existsb (Nat.eqb child) gone = false.
Proof.
  induction 1 as [|c gone H _ IH]; cbn [existsb]; [reflexivity|].
  rewrite IH. destruct (Nat.eqb_spec child c); [lia | reflexivity].
Qed.

(** X15: a notification comes and goes.  [showNotification] adds it to the
    body and sets one timer of 3000 ms.  When that timer goes off, the
    notification starts to slide out and one timer of 300 ms is pending in
    its place; when that one goes off, the notification is removed.  The
    children of the body and the pending timers are then what they were
    before the notification was shown. *)
Theorem notification_comes_and_goes env message type st
  (Hgone : Forall (fun child => child < List.length (body_children st))
             (detached st)) :
  let child := List.length (body_children st) in
  let timer := List.length (timers st) in
  let shown := run (showNotification message type) env st in
  let sliding := run (fire timer) env shown in
  let gone := run (fire timer) env sliding in
  document_body shown = document_body st ++ [notification message type]
  /\ timers shown = timers st ++ [(SlideOutThenRemove child, 3000%N)]
  /\ document_body sliding =
     document_body st
     ++ [set_style_animation (notification message type)
           (lit "slideOut 0.3s ease")]
  /\ timers sliding = timers st ++ [(Remove child, 300%N)]
  /\ document_body gone = document_body st
  /\ timers gone = timers st
  /\ log gone = log st
  /\ feedbackList gone = feedbackList st
  /\ feedbackForm gone = feedbackForm st.
Proof.
  intros child timer shown sliding gone.
  assert (Efresh :
    existsb (Nat.eqb (List.length (body_children st))) (detached st) = false)
    by (apply not_gone_yet, Hgone).
  assert (Esliding :
    run (fire (List.length (timers st))) env (notified message type st) =
    {| log := log st;
       userEmail := userEmail st;
       feedbackList := feedbackList st;
       feedbackForm := feedbackForm st;
       defaults := defaults st;
       body_children :=
         body_children st
         ++ [set_style_animation (notification message type)
               (lit "slideOut 0.3s ease")];
       timers := timers st ++ [(Remove (List.length (body_children st)), 300%N)];
       detached := detached st |}).
  { unfold run, fire. cbn [notified timers].
    rewrite nth_error_length_app.
    unfold run_callback, bind, set_notification_animation, setTimeout.
    cbn [snd fst notified log userEmail feedbackList feedbackForm defaults
         body_children timers detached].
    rewrite nth_error_length_app, !firstn_length_app, !skipn_S_length_app,
      app_nil_r.
    reflexivity. }
  assert (Egone :
    gone =
    {| log := log st;
       userEmail := userEmail st;
       feedbackList := feedbackList st;
       feedbackForm := feedbackForm st;
       defaults := defaults st;
       body_children :=
         body_children st
         ++ [set_style_animation (notification message type)
               (lit "slideOut 0.3s ease")];
       timers := timers st;
       detached := List.length (body_children st) :: detached st |}).
  { unfold gone, sliding, shown, timer.
    change (run (showNotification message type) env st)
      with (notified message type st).
    rewrite Esliding. unfold run, fire. cbn [timers].
    rewrite nth_error_length_app.
    unfold run_callback, notification_remove.
    cbn [snd log userEmail feedbackList feedbackForm defaults
         body_children timers detached].
    rewrite Efresh, firstn_length_app, skipn_S_length_app, app_nil_r.
    reflexivity. }
  rewrite Egone. unfold sliding, shown, timer, child.
  change (run (showNotification message type) env st)
    with (notified message type st).
  rewrite Esliding. unfold document_body.
  cbn [notified log feedbackList feedbackForm body_children timers detached].
  rewrite !attached_app. cbn [Nat.add attached].
  rewrite Efresh. cbn [existsb]. rewrite Nat.eqb_refl. cbn [orb].
  rewrite attached_later by lia.
  rewrite app_nil_r. repeat split.
Qed.

Lemma notification_comes_and_goes_witness :
  let st := run feedbackForm_submit offline (page_with cs101) in
  let shown := run (showNotification (lit "All feedback cleared!") (lit "success"))
                 offline st in
  let sliding := run (fire 1) offline shown in
  let gone := run (fire 1) offline sliding in
  Forall (fun child => child < List.length (body_children st)) (detached st)
  /\ document_body shown
     = document_body st
       ++ [notification (lit "All feedback cleared!") (lit "success")]
  /\ timers shown = timers st ++ [(SlideOutThenRemove 1, 3000%N)]
  /\ document_body sliding =
     document_body st
     ++ [set_style_animation
           (notification (lit "All feedback cleared!") (lit "success"))
           (lit "slideOut 0.3s ease")]
  /\ timers sliding = timers st ++ [(Remove 1, 300%N)]
  /\ document_body gone = document_body st
  /\ timers gone = timers st
  /\ log gone = log st
  /\ feedbackList gone = feedbackList st
  /\ feedbackForm gone = feedbackForm st.
Proof.
  split; [constructor|].
  apply (notification_comes_and_goes offline (lit "All feedback cleared!")
           (lit "success") (run feedbackForm_submit offline (page_with cs101))).
  constructor.
Defined.
